(** * financial_report: the metrics engine and the period partitioner

    A shallow embedding of [financial_analyzer.py] (class
    [FinancialAnalyzer]) together with the constants of [config.py] it
    reads, and the proofs of the properties the specification states
    about them.

    Numbers.  The amount column of a table is a [float64] column, or an
    [int64] column when every amount is written as a whole number.  The engine is
    read on a [float64] column with the amounts as exact rationals ([Q]):
    rounding of binary floating point is abstracted away, and equations
    between amounts are stated up to [Qeq] (written [==]), or with [=]
    where the code returns that very number.  The two places where the
    source can leave the finite numbers (the mean of an empty column, a
    quotient with a zero denominator) are kept: such results have type
    [fnum], which carries [NaN] and the infinities.  On an [int64] column
    the arithmetic is that of 64-bit integers, which wraps around; the
    module [Int64] reads the spending side of the engine on such a column.

    Tables.  A [DataFrame] is the list of its rows, a pandas [Series]
    indexed by labels is the list of its (label, value) pairs in index
    order, and a Python [dict] is a finite map ([gmap]).  A cell of the
    date column or of the category column may be missing ([None]): a row
    with a missing key is in no group of a [groupby], and a missing
    category equals no string. *)

From Stdlib Require Import QArith Qabs Qminmax Qround Lqa ZArith Ascii String List
  Sorted Permutation.
From stdpp Require Import base option list strings gmap fin_maps.

Local Open Scope Q_scope.

(** * Part I: the embedding *)

(** ** Python primitives *)

Module Py.

(** [a > b] on numbers. *)
Definition gt (a b : Q) : bool :=
  match b ?= a with Lt => true | _ => false end.

(** [a < b] on numbers. *)
Definition lt (a b : Q) : bool :=
  match a ?= b with Lt => true | _ => false end.

(** The builtin [max(a, b)]: the first of the largest arguments, so [b] is
    returned only when it is strictly greater than [a]. *)
Definition max (a b : Q) : Q := if gt b a then b else a.

(** The builtin [sum] and the pandas reductions [.sum()], of a Series and
    of the groups of a [groupby], on exact numbers: the sum of an empty
    sequence is [0].  On floats the reductions add in different orders and
    may differ in the last digits; the exact reading has one sum. *)
Definition sum (l : list Q) : Q := foldr Qplus 0 l.

(** [x in l] for a list of strings. *)
Definition str_in (x : string) (l : list string) : bool :=
  existsb (String.eqb x) l.

(** [sum(d.values())]. *)
Definition dict_sum (d : gmap string Q) : Q := sum (map snd (map_to_list d)).

(** Numbers that may be non-finite: the result of a floating-point
    division or of a reduction that has nothing to reduce. *)
Inductive fnum : Type :=
  | Fin (q : Q)
  | PInf
  | NInf
  | NaN.

(** Floating-point division [a / b] of finite numbers: a zero divisor gives
    an infinity or [NaN] (numpy warns and does not raise). *)
Definition div (a b : Q) : fnum :=
  if Qeq_bool b 0 then
    (if gt a 0 then PInf else if lt a 0 then NInf else NaN)
  else Fin (a / b).

(** [x * c] for a positive finite constant [c]. *)
Definition mul (x : fnum) (c : Q) : fnum :=
  match x with
  | Fin q => Fin (q * c)
  | other => other
  end.

(** Subscripting a dict with a key it does not hold raises [KeyError]. *)
Inductive result (A : Type) : Type :=
  | Ok (a : A)
  | KeyError (key : string).
Arguments Ok {A} a.
Arguments KeyError {A} key.

Definition bind {A B} (x : result A) (f : A -> result B) : result B :=
  match x with
  | Ok a => f a
  | KeyError k => KeyError k
  end.

(** The body of a [for] loop run over a list, stopping at the first
    exception. *)
Fixpoint for_each {A B} (f : A -> result B) (l : list A) : result (list B) :=
  match l with
  | [] => Ok []
  | a :: l' =>
      bind (f a) (fun b => bind (for_each f l') (fun bs => Ok (b :: bs)))
  end.

End Py.

#[global] Instance result_bind : MBind Py.result :=
  fun A B f x => Py.bind x f.
#[global] Instance result_ret : MRet Py.result := fun A a => Py.Ok a.

(** ** pandas primitives *)

(** The order in which [groupby] (with its default [sort=True]) lists the
    group keys. *)
Class Cmp (K : Type) := cmp : K -> K -> comparison.

#[global] Instance string_cmp : Cmp string := String.compare.
#[global] Instance Z_cmp : Cmp Z := Z.compare.
#[global] Instance pair_cmp {A B} `{Cmp A, Cmp B} : Cmp (A * B) :=
  fun x y =>
    match cmp (fst x) (fst y) with
    | Eq => cmp (snd x) (snd y)
    | c => c
    end.

Module Pandas.

(** A Series of numbers indexed by string labels, in index order. *)
Definition Series : Type := list (string * Q).

Section GroupBy.
Context {A K : Type} `{Cmp K}.

(** One row joins the group of its key; a key not seen before opens a
    group at its place in the key order. *)
Fixpoint group_insert (k : K) (r : A) (gs : list (K * list A))
  : list (K * list A) :=
  match gs with
  | [] => [(k, [r])]
  | (k', g) :: gs' =>
      match cmp k k' with
      | Lt => (k, [r]) :: gs
      | Eq => (k', r :: g) :: gs'
      | Gt => (k', g) :: group_insert k r gs'
      end
  end.

(** [df.groupby(key)]: the groups in key order, every group holding its
    rows in the order of the frame.  A cell of the key column may be
    missing ([NaN], [NaT]); a row with a missing key is in no group
    (the default [dropna=True]). *)
Definition groupby (key : A -> option K) (rows : list A) : list (K * list A) :=
  foldr (fun r gs =>
           match key r with
           | Some k => group_insert k r gs
           | None => gs
           end) [] rows.

(** Equality of keys, as the key order decides it. *)
Definition key_eqb (a b : K) : bool :=
  match cmp a b with Eq => true | _ => false end.

(** A test on the key, asked of a cell of the key column: it fails on a
    missing value. *)
Definition key_test (P : K -> bool) (cell : option K) : bool :=
  match cell with
  | Some k => P k
  | None => false
  end.

(** The cell holds the key [k]. *)
Definition has_key (k : K) (cell : option K) : bool :=
  key_test (fun k' => key_eqb k' k) cell.

(** The cell holds a value: [notna]. *)
Definition notna (cell : option K) : bool :=
  key_test (fun _ => true) cell.

(** The rows of the group of key [k]; no rows when there is no such
    group. *)
Definition group_of (k : K) (gs : list (K * list A)) : list A :=
  match List.find (fun kg => key_eqb (fst kg) k) gs with
  | Some kg => snd kg
  | None => []
  end.

(** The strict order of the keys. *)
Definition key_lt (a b : K) : Prop := cmp a b = Lt.

(** A weighted sum over the groups that a test on the key selects. *)
Definition selected_sum (P : K -> bool) (f : A -> Q) (gs : list (K * list A))
  : Q :=
  Py.sum (map (fun kg => Py.sum (map f (snd kg)))
              (List.filter (fun kg => P (fst kg)) gs)).
End GroupBy.

(** The comparison [cell == c] of a cell of a column of strings with a
    string: a missing value equals no string. *)
Definition eq_cell (cell : option string) (c : string) : bool :=
  match cell with
  | Some s => String.eqb s c
  | None => false
  end.

(** [df.groupby(key)[col].sum()]. *)
Definition groupby_sum {A} (key : A -> option string) (col : A -> Q)
  (rows : list A)
  : Series :=
  map (fun kg => (fst kg, Py.sum (map col (snd kg)))) (groupby key rows).

(** [abs(s)], element by element. *)
Definition series_abs (s : Series) : Series :=
  map (fun kv => (fst kv, Qabs (snd kv))) s.

(** [s.sum()]. *)
Definition series_sum (s : Series) : Q := Py.sum (map snd s).

(** [s[k] = v]: overwrites the entries labelled [k], and appends a new
    entry when there is none. *)
Definition series_setitem (k : string) (v : Q) (s : Series) : Series :=
  if existsb (fun kv => String.eqb (fst kv) k) s
  then map (fun kv => if String.eqb (fst kv) k then (fst kv, v) else kv) s
  else s ++ [(k, v)].

(** [s.drop(k, errors='ignore')]. *)
Definition series_drop (k : string) (s : Series) : Series :=
  List.filter (fun kv => negb (String.eqb (fst kv) k)) s.

(** [s.to_dict()]; the labels of the series built here are pairwise
    distinct (see [adjusted_labels_NoDup]). *)
Definition to_dict (s : Series) : gmap string Q := list_to_map s.

(** [Series.mean()]: the sum over the count, [NaN] for an empty column. *)
Definition mean (l : list Q) : Py.fnum :=
  match l with
  | [] => Py.NaN
  | _ => Py.Fin (Py.sum l / inject_Z (Z.of_nat (length l)))
  end.

End Pandas.

(** ** config.py *)

Module Config.

Definition base_currency : string := "EGP".
Definition loan_category : string := "Loan, interests".
Definition lending_category : string := "Lending, renting".
Definition charity_category : string := "Charity".

(** [ANALYSIS_CONFIG['spending_categories']]; the entry ['normal'] is the
    string ['all_others'], which the analyzer never reads. *)
Definition spending_categories_charity : list string := ["Charity"].
Definition spending_categories_lending : list string :=
  ["Loan, interests"; "Lending, renting"].

End Config.

(** ** The transaction table *)

(** A parsed [date] value; only the calendar year and month are read. *)
Record Timestamp : Type := {
  ts_year : Z;
  ts_month : Z;
  ts_day : Z
}.

(** A row of the table handed to the analyzer by the loader.  The amount
    is a number (the loader drops the rows whose amount is not one); the
    date and the category may be missing ([None]: the loader keeps a row
    whose date cell is empty, as [NaT], and a row whose category cell is
    empty, as [NaN]).  The other columns of the table are never read. *)
Record Transaction : Type := {
  tx_date : option Timestamp;
  tx_category : option string;
  tx_amount : Q
}.

(** A row of [processed_data]: the columns of the table and the columns
    [_prepare_data] derives from them.  A pandas month is the pair of its
    year and its month number, a quarter the pair of its year and its
    quarter number; the three are missing where the date is. *)
Record Row : Type := {
  date : option Timestamp;
  category : option string;
  amount : Q;
  month : option (Z * Z);
  year : option Z;
  quarter : option (Z * Z);
  is_expense : bool;
  is_income : bool
}.

(** ** class FinancialAnalyzer *)

(** The value under the key ['raw_totals']. *)
Record RawTotals : Type := {
  total_spending_raw : Q;
  total_income_raw : Q;
  spending_by_category_raw : gmap string Q;
  income_by_category_raw : gmap string Q
}.

(** The dict returned by [_calculate_metrics], one field per key. *)
Record MetricsRecord : Type := {
  spending_by_category : gmap string Q;
  income_by_category : gmap string Q;
  total_spending : Q;
  total_income : Q;
  net_balance : Q;
  charity_spending : Q;
  spending_excluding_charity : Q;
  transaction_count : nat;
  avg_transaction : Py.fnum;
  simplified_spending : gmap string Q;
  total_lending : Q;
  repaid_lending : Q;
  outstanding_lending : Q;
  excess_repayment : Q;
  charity_percentage : Py.fnum;
  currency : string;
  raw_totals : RawTotals
}.

(** The values a metrics dict holds. *)
Inductive Value : Type :=
  | VNum (q : Q)
  | VFloat (x : Py.fnum)
  | VInt (n : nat)
  | VStr (s : string)
  | VDict (d : gmap string Q)
  | VRaw (r : RawTotals).

(** The keys of the returned dict with their values, as the [return]
    statement of [_calculate_metrics] lists them. *)
Definition items (m : MetricsRecord) : list (string * Value) :=
  [ ("spending_by_category", VDict (spending_by_category m));
    ("income_by_category", VDict (income_by_category m));
    ("total_spending", VNum (total_spending m));
    ("total_income", VNum (total_income m));
    ("net_balance", VNum (net_balance m));
    ("charity_spending", VNum (charity_spending m));
    ("spending_excluding_charity", VNum (spending_excluding_charity m));
    ("transaction_count", VInt (transaction_count m));
    ("avg_transaction", VFloat (avg_transaction m));
    ("simplified_spending", VDict (simplified_spending m));
    ("total_lending", VNum (total_lending m));
    ("repaid_lending", VNum (repaid_lending m));
    ("outstanding_lending", VNum (outstanding_lending m));
    ("excess_repayment", VNum (excess_repayment m));
    ("charity_percentage", VFloat (charity_percentage m));
    ("currency", VStr (currency m));
    ("raw_totals", VRaw (raw_totals m)) ].

(** [m[key]]. *)
Definition getitem (m : MetricsRecord) (key : string) : Py.result Value :=
  match List.find (fun kv => String.eqb (fst kv) key) (items m) with
  | Some kv => Py.Ok (snd kv)
  | None => Py.KeyError key
  end.

(** The attributes [__init__] sets. *)
Record FinancialAnalyzer : Type := {
  raw_data : list Transaction;
  processed_data : list Row;
  base_currency : string
}.

Definition _prepare_data (df : list Transaction) : list Row :=
  map (fun t =>
         let d := tx_date t in
         {| date := d;
            category := tx_category t;
            amount := tx_amount t;
            month := option_map (fun d => (ts_year d, ts_month d)) d;
            year := option_map ts_year d;
            quarter :=
              option_map
                (fun d => (ts_year d, ((ts_month d - 1) / 3 + 1)%Z)) d;
            is_expense := Py.lt (tx_amount t) 0;
            is_income := Py.gt (tx_amount t) 0 |})
      df.

Definition __init__ (df : list Transaction) : FinancialAnalyzer :=
  {| raw_data := df;
     processed_data := _prepare_data df;
     base_currency := Config.base_currency |}.

(** The rows of [data] whose category is [c]:
    [data[data['category'] == c]]. *)
Definition with_category (c : string) (data : list Row) : list Row :=
  List.filter (fun r => Pandas.eq_cell (category r) c) data.

(** The body of the loop of [_categorize_spending]: one item of the
    spending map is added to the amount of its bucket. *)
Definition categorize_step (acc : Q * Q * Q) (item : string * Q) : Q * Q * Q :=
  let '(charity_amount, lending_amount, normal_amount) := acc in
  let '(category, amount) := item in
  if Py.str_in category Config.spending_categories_charity then
    (charity_amount + amount, lending_amount, normal_amount)
  else if Py.str_in category Config.spending_categories_lending then
    (charity_amount, lending_amount + amount, normal_amount)
  else
    (charity_amount, lending_amount, normal_amount + amount).

Definition _categorize_spending (spending_by_category : gmap string Q)
  : gmap string Q :=
  let '(charity_amount, lending_amount, normal_amount) :=
    foldl categorize_step (0, 0, 0) (map_to_list spending_by_category) in
  {[ "charity" := charity_amount;
     "lending" := lending_amount;
     "normal" := normal_amount ]}.

Definition _calculate_metrics (self : FinancialAnalyzer) (data : list Row)
  : MetricsRecord :=
  (* Spending by category (raw) *)
  let expenses := List.filter is_expense data in
  let spending_by_category :=
    Pandas.series_abs (Pandas.groupby_sum category amount expenses) in
  (* Income by category (raw) *)
  let income_data := List.filter is_income data in
  let income_by_category := Pandas.groupby_sum category amount income_data in
  (* Lending logic *)
  let loan_expenses :=
    Qabs (Py.sum (map amount (with_category "Loan, interests" expenses))) in
  let loan_income :=
    Py.sum (map amount (with_category "Lending, renting" income_data)) in
  let net_loan_spending := loan_expenses - loan_income in
  let outstanding_lending := Py.max 0 net_loan_spending in
  let excess_repayment := Py.max 0 (- net_loan_spending) in
  (* Adjusted categories *)
  let adjusted_spending_by_category :=
    if Py.gt net_loan_spending 0
    then Pandas.series_setitem "Loan, interests" net_loan_spending
           spending_by_category
    else Pandas.series_drop "Loan, interests" spending_by_category in
  let adjusted_income_by_category :=
    Pandas.series_drop "Lending, renting" income_by_category in
  (* Totals with adjustments *)
  let total_spending_adjusted :=
    Pandas.series_sum adjusted_spending_by_category in
  let total_income_adjusted :=
    Pandas.series_sum adjusted_income_by_category in
  (* Charity *)
  let charity_spending :=
    Qabs (Py.sum (map amount (with_category "Charity" expenses))) in
  let spending_excluding_charity :=
    total_spending_adjusted - charity_spending in
  let simplified_categories :=
    _categorize_spending (Pandas.to_dict adjusted_spending_by_category) in
  (* Raw totals *)
  let total_spending_raw := Pandas.series_sum spending_by_category in
  let total_income_raw := Pandas.series_sum income_by_category in
  {| spending_by_category := Pandas.to_dict adjusted_spending_by_category;
     income_by_category := Pandas.to_dict adjusted_income_by_category;
     total_spending := total_spending_adjusted;
     total_income := total_income_adjusted;
     net_balance := total_income_adjusted - total_spending_adjusted;
     charity_spending := charity_spending;
     spending_excluding_charity := spending_excluding_charity;
     transaction_count := length data;
     avg_transaction := Pandas.mean (map amount data);
     simplified_spending := simplified_categories;
     total_lending := loan_expenses;
     repaid_lending := loan_income;
     outstanding_lending := outstanding_lending;
     excess_repayment := excess_repayment;
     charity_percentage :=
       if Py.gt total_spending_adjusted 0
       then Py.mul (Py.div charity_spending total_spending_adjusted) 100
       else Py.Fin 0;
     currency := base_currency self;
     raw_totals :=
       {| total_spending_raw := total_spending_raw;
          total_income_raw := total_income_raw;
          spending_by_category_raw := Pandas.to_dict spending_by_category;
          income_by_category_raw := Pandas.to_dict income_by_category |} |}.

Definition analyze_all_time (self : FinancialAnalyzer) : MetricsRecord :=
  _calculate_metrics self (processed_data self).

(** [analyze_by_period(period)]: [period] names the column to group by,
    here the column itself.  The source keys the result by the text of the
    period value; distinct periods have distinct texts, so the result is
    keyed here by the period value, listed in the order of insertion. *)
Definition analyze_by_period {K} `{Cmp K} (period : Row -> option K)
  (self : FinancialAnalyzer) : list (K * MetricsRecord) :=
  map (fun kg => (fst kg, _calculate_metrics self (snd kg)))
      (Pandas.groupby period (processed_data self)).

(** The four lending fields of one record. *)
Record LendingDetails : Type := {
  ld_total_lending : Value;
  ld_repaid_lending : Value;
  ld_outstanding_lending : Value;
  ld_excess_repayment : Value
}.

Definition lending_fields (data : MetricsRecord) : Py.result LendingDetails :=
  a ← getitem data "total_lending";
  b ← getitem data "repaid_lending";
  c ← getitem data "outstanding_lending";
  d ← getitem data "excess_repayment";
  mret {| ld_total_lending := a; ld_repaid_lending := b;
          ld_outstanding_lending := c; ld_excess_repayment := d |}.

(** The class body defines [get_lending_summary] twice.  This is the first
    definition; the second one below rebinds the name, so this one is never
    the method that runs. *)
Definition get_lending_summary_shadowed (self : FinancialAnalyzer)
  : Py.result (LendingDetails * list (Z * Z * LendingDetails)) :=
  let all_time_data := analyze_all_time self in
  let monthly_data := analyze_by_period month self in
  overall ← lending_fields all_time_data;
  by_month ← Py.for_each
    (fun md => v ← lending_fields (snd md); mret (fst md, v)) monthly_data;
  mret (overall, by_month).

(** The second definition, the one bound to the class: it reads the key
    ['lending_details'] of the records. *)
Definition get_lending_summary (self : FinancialAnalyzer)
  : Py.result (Value * list (Z * Z * Value)) :=
  let all_time_data := analyze_all_time self in
  let monthly_data := analyze_by_period month self in
  overall ← getitem all_time_data "lending_details";
  by_month ← Py.for_each
    (fun md => v ← getitem (snd md) "lending_details"; mret (fst md, v))
    monthly_data;
  mret (overall, by_month).

(** ** Names for the statements *)

(** The intermediate values of [_calculate_metrics], under the names the
    source gives them. *)
Definition expenses (data : list Row) : list Row :=
  List.filter is_expense data.

Definition income_data (data : list Row) : list Row :=
  List.filter is_income data.

Definition net_loan_spending (data : list Row) : Q :=
  Qabs (Py.sum (map amount (with_category "Loan, interests" (expenses data))))
  - Py.sum (map amount (with_category "Lending, renting" (income_data data))).

Definition adjusted_spending_by_category (data : list Row) : Pandas.Series :=
  let spending_by_category :=
    Pandas.series_abs (Pandas.groupby_sum category amount (expenses data)) in
  if Py.gt (net_loan_spending data) 0
  then Pandas.series_setitem "Loan, interests" (net_loan_spending data)
         spending_by_category
  else Pandas.series_drop "Loan, interests" spending_by_category.

Definition adjusted_income_by_category (data : list Row) : Pandas.Series :=
  Pandas.series_drop "Lending, renting"
    (Pandas.groupby_sum category amount (income_data data)).



Definition repayment_income_of (df : list Transaction) : Q :=
  Py.sum (map tx_amount
              (List.filter
                 (fun t => Py.gt (tx_amount t) 0
                           && Pandas.eq_cell (tx_category t) Config.lending_category)
                 df)).






(** What a row adds to the adjusted income: its amount when it is an income
    of a category other than the repayment category. *)
Definition income_weight (r : Row) : Q :=
  if is_income r
     && Pandas.key_test
          (fun c => negb (String.eqb c Config.lending_category)) (category r)
  then amount r else 0.


(** The four lending fields of a record, as values. *)
Definition lending_details (m : MetricsRecord) : LendingDetails :=
  {| ld_total_lending := VNum (total_lending m);
     ld_repaid_lending := VNum (repaid_lending m);
     ld_outstanding_lending := VNum (outstanding_lending m);
     ld_excess_repayment := VNum (excess_repayment m) |}.

(** ** A sample ledger *)

Definition tx (y mth d : Z) (c : string) (a : Q) : Transaction :=
  {| tx_date := Some {| ts_year := y; ts_month := mth; ts_day := d |};
     tx_category := Some c;
     tx_amount := a |}.

(** The three end-to-end scenarios of the specification (their rows carry
    no date there; any date will do). *)
Definition scenario_A : list Transaction :=
  [ tx 2025 3 1 "Loan, interests" (-500);
    tx 2025 3 2 "Lending, renting" 200 ].

Definition scenario_B : list Transaction :=
  [ tx 2025 3 1 "Loan, interests" (-200);
    tx 2025 3 2 "Lending, renting" 500 ].

Definition scenario_C : list Transaction :=
  [ tx 2025 3 1 "Charity" (-100);
    tx 2025 3 2 "Food" (-400);
    tx 2025 3 3 "Salary" 1000 ].

(** A table with a transaction that has no date and one that has no
    category. *)
Definition loose_ledger : list Transaction :=
  [ tx 2025 3 1 "Food" (-4);
    {| tx_date := None; tx_category := Some "Food"; tx_amount := -2 |};
    {| tx_date := Some {| ts_year := 2025; ts_month := 3; ts_day := 5 |};
       tx_category := None;
       tx_amount := -3 |} ].

(** Two years of transactions: salaries, food, a gift to charity, a loan
    given in 2024 and repaid in part in 2025. *)
Definition sample_ledger : list Transaction :=
  [ tx 2024 11 3 "Salary" 1000;
    tx 2024 11 9 "Food" (-400);
    tx 2024 12 1 "Loan, interests" (-500);
    tx 2024 12 24 "Charity" (-100);
    tx 2025 1 5 "Salary" 1200;
    tx 2025 1 20 "Lending, renting" 200;
    tx 2025 2 5 "Salary" (2401 # 2);
    tx 2025 2 14 "Food" (-75 # 2) ].

(** ** Names for the further properties *)

(** A row whose sign flags are those [_prepare_data] computes from its
    amount. *)
Definition prepared (r : Row) : Prop :=
  is_expense r = Py.lt (amount r) 0 /\ is_income r = Py.gt (amount r) 0.

(** What a row adds to the raw spending, to the raw income, to the loan
    expenses, to the repayments and to the charity spending.  A row
    without a category is in no group of [groupby('category')], and adds
    nothing to the raw totals. *)
Definition expense_magnitude (r : Row) : Q :=
  if is_expense r && Pandas.notna (category r) then Qabs (amount r) else 0.

Definition income_amount (r : Row) : Q :=
  if is_income r && Pandas.notna (category r) then amount r else 0.

Definition loan_weight (r : Row) : Q :=
  if is_expense r && Pandas.eq_cell (category r) Config.loan_category
  then Qabs (amount r) else 0.

Definition repay_weight (r : Row) : Q :=
  if is_income r && Pandas.eq_cell (category r) Config.lending_category
  then amount r else 0.

Definition charity_weight (r : Row) : Q :=
  if is_expense r && Pandas.eq_cell (category r) Config.charity_category
  then Qabs (amount r) else 0.

(** The transactions of a table that carry a date,
    [df[df['date'].notna()]], and the rows of a frame that have a value in
    the column [period]. *)
Definition dated (df : list Transaction) : list Transaction :=
  List.filter (fun t => Pandas.notna (tx_date t)) df.

Definition with_period {K} (period : Row -> option K) (data : list Row)
  : list Row :=
  List.filter (fun r => Pandas.notna (period r)) data.


(** The sum of the entries of a series that carry the label [k]. *)
Definition label_sum (k : string) (s : Pandas.Series) : Q :=
  Py.sum (map snd (List.filter (fun kv => String.eqb (fst kv) k) s)).


(** ** The secondary views *)







(** The transaction counts of the records of a period result, summed. *)
Definition period_count {K} (results : list (K * MetricsRecord)) : nat :=
  list_sum (map (fun kr => transaction_count (snd kr)) results).


(** ** Sorting and slicing, and the top categories *)

Module PyList.

(** One item put in its place in a list sorted by falling value: behind
    the items of a greater value, before those of an equal or lesser
    one. *)
Fixpoint insert_desc (x : string * Q) (l : list (string * Q))
  : list (string * Q) :=
  match l with
  | [] => [x]
  | y :: l' => if Py.gt (snd y) (snd x) then y :: insert_desc x l' else x :: l
  end.

(** [sorted(items, key=lambda x: x[1], reverse=True)]: by falling value,
    items of equal value in their original order (the sort is stable, also
    when reversed). *)
Definition sorted_by_value_desc (items : list (string * Q))
  : list (string * Q) :=
  foldr insert_desc [] items.

(** The order of falling value. *)
Definition value_ge (a b : string * Q) : Prop := snd b <= snd a.

(** The slice [l[:n]]: the first [n] items, and for a negative [n] all but
    the last [-n]. *)
Definition slice_to {A} (n : Z) (l : list A) : list A :=
  if (n <? 0)%Z
  then firstn (Z.to_nat (Z.of_nat (length l) + n)) l
  else firstn (Z.to_nat n) l.

End PyList.

(** [get_top_spending_categories(n)].  The items of the dict
    ['spending_by_category'] come in the order of insertion, which is the
    index order of the adjusted series the dict was made of; the dict
    returned is given by its items in the order of insertion. *)
Definition get_top_spending_categories (n : Z) (self : FinancialAnalyzer)
  : list (string * Q) :=
  let spending := adjusted_spending_by_category (processed_data self) in
  PyList.slice_to n (PyList.sorted_by_value_desc spending).

(** ** An amount column of whole numbers

    The amounts are read with [pd.to_numeric], which gives the column the
    dtype [int64] when every amount of the table is written as a whole
    number, and [float64] otherwise.  On an [int64] column pandas and
    numpy compute in 64-bit two's complement: a sum, a difference, a
    negation or an absolute value that leaves the range
    [-2^63 .. 2^63 - 1] wraps around, and nothing is raised.  The
    definitions above read the arithmetic of the engine on a [float64]
    column; this module reads lines 62 to 99 of [_calculate_metrics], the
    spending and the income side of the record, on an [int64] column, with
    the same frame: the cell of a row holds the whole number
    [cell (amount r)]. *)

Module Int64.

(** The 64-bit integer congruent to [z] modulo [2^64]. *)
Definition wrap (z : Z) : Z := ((z + 2 ^ 63) mod 2 ^ 64 - 2 ^ 63)%Z.

Definition add (a b : Z) : Z := wrap (a + b).
Definition sub (a b : Z) : Z := wrap (a - b).
Definition neg (a : Z) : Z := wrap (- a).

(** [abs(a)]: the magnitude of [-2^63] is not an [int64], and wraps to
    [-2^63]. *)
Definition abs (a : Z) : Z := wrap (Z.abs a).

(** The reduction [.sum()] of an [int64] column: the sum modulo [2^64],
    whatever the order of the additions. *)
Definition sum (l : list Z) : Z := foldr add 0%Z l.

(** The builtin [max(a, b)]. *)
Definition max (a b : Z) : Z := if (a <? b)%Z then b else a.

(** A number is whole, and the whole number a cell holds. *)
Definition whole (q : Q) : Prop := q == inject_Z (Qfloor q).

Definition cell (q : Q) : Z := Qfloor q.

(** A Series of [int64] indexed by string labels, with the operations of
    [Pandas] on it. *)
Definition Series : Type := list (string * Z).

Definition groupby_sum {A} (key : A -> option string) (col : A -> Z)
  (rows : list A) : Series :=
  map (fun kg => (fst kg, sum (map col (snd kg)))) (Pandas.groupby key rows).

Definition series_abs (s : Series) : Series :=
  map (fun kv => (fst kv, abs (snd kv))) s.

Definition series_sum (s : Series) : Z := sum (map snd s).

Definition series_setitem (k : string) (v : Z) (s : Series) : Series :=
  if existsb (fun kv => String.eqb (fst kv) k) s
  then map (fun kv => if String.eqb (fst kv) k then (fst kv, v) else kv) s
  else s ++ [(k, v)].

Definition series_drop (k : string) (s : Series) : Series :=
  List.filter (fun kv => negb (String.eqb (fst kv) k)) s.

Definition to_dict (s : Series) : gmap string Z := list_to_map s.

(** The figures of lines 62 to 99 that the returned dict holds. *)
Record Metrics : Type := {
  spending_by_category : gmap string Z;
  income_by_category : gmap string Z;
  total_spending : Z;
  total_income : Z;
  charity_spending : Z;
  total_lending : Z;
  repaid_lending : Z;
  outstanding_lending : Z;
  excess_repayment : Z
}.

Definition _calculate_metrics (data : list Row) : Metrics :=
  let amount := fun r => cell (amount r) in
  (* Spending by category (raw) *)
  let expenses := List.filter is_expense data in
  let spending_by_category :=
    series_abs (groupby_sum category amount expenses) in
  (* Income by category (raw) *)
  let income_data := List.filter is_income data in
  let income_by_category := groupby_sum category amount income_data in
  (* Lending logic *)
  let loan_expenses :=
    abs (sum (map amount (with_category "Loan, interests" expenses))) in
  let loan_income :=
    sum (map amount (with_category "Lending, renting" income_data)) in
  let net_loan_spending := sub loan_expenses loan_income in
  let outstanding_lending := max 0 net_loan_spending in
  let excess_repayment := max 0 (neg net_loan_spending) in
  (* Adjusted categories *)
  let adjusted_spending_by_category :=
    if (0 <? net_loan_spending)%Z
    then series_setitem "Loan, interests" net_loan_spending
           spending_by_category
    else series_drop "Loan, interests" spending_by_category in
  let adjusted_income_by_category :=
    series_drop "Lending, renting" income_by_category in
  (* Totals with adjustments *)
  let total_spending_adjusted := series_sum adjusted_spending_by_category in
  let total_income_adjusted := series_sum adjusted_income_by_category in
  (* Charity *)
  let charity_spending :=
    abs (sum (map amount (with_category "Charity" expenses))) in
  {| spending_by_category := to_dict adjusted_spending_by_category;
     income_by_category := to_dict adjusted_income_by_category;
     total_spending := total_spending_adjusted;
     total_income := total_income_adjusted;
     charity_spending := charity_spending;
     total_lending := loan_expenses;
     repaid_lending := loan_income;
     outstanding_lending := outstanding_lending;
     excess_repayment := excess_repayment |}.

(** The intermediate values, under the names the source gives them. *)
Definition net_loan_spending (data : list Row) : Z :=
  sub (abs (sum (map (fun r => cell (amount r))
                     (with_category "Loan, interests" (expenses data)))))
      (sum (map (fun r => cell (amount r))
                (with_category "Lending, renting" (income_data data)))).

Definition adjusted_spending_by_category (data : list Row) : Series :=
  let spending_by_category :=
    series_abs (groupby_sum category (fun r => cell (amount r))
                  (expenses data)) in
  if (0 <? net_loan_spending data)%Z
  then series_setitem "Loan, interests" (net_loan_spending data)
         spending_by_category
  else series_drop "Loan, interests" spending_by_category.

Definition adjusted_income_by_category (data : list Row) : Series :=
  series_drop "Lending, renting"
    (groupby_sum category (fun r => cell (amount r)) (income_data data)).

(** The exact sum of whole numbers, and of their magnitudes. *)
Definition exact_sum (l : list Z) : Z := foldr Z.add 0%Z l.

Definition magnitude_sum (l : list Z) : Z :=
  foldr (fun x acc => (Z.abs x + acc)%Z) 0%Z l.

(** The frames of whole amounts, their cells, and the summed magnitude
    of the cells of a frame. *)
Definition whole_rows (rows : list Row) : Prop :=
  Forall (fun r => whole (amount r)) rows.

Definition cells (rows : list Row) : list Z :=
  map (fun r => cell (amount r)) rows.

Definition frame_magnitude (rows : list Row) : Z :=
  magnitude_sum (cells rows).

(** An entry of an [int64] series stands for an entry of a series of
    exact numbers: the same label, the same value, and the value within
    the bound [B]. *)
Definition sim (B : Z) (a : string * Z) (b : string * Q) : Prop :=
  fst a = fst b /\ inject_Z (snd a) == snd b /\ (Z.abs (snd a) <= B)%Z.

End Int64.

(** Two expenses of [2^62] each in one category, in a table of whole
    amounts. *)
Definition overflow_ledger : list Transaction :=
  [ tx 2025 3 1 "Food" (inject_Z (- 2 ^ 62));
    tx 2025 3 2 "Food" (inject_Z (- 2 ^ 62)) ].

(** * Part II: properties *)

(** ** Arithmetic of the primitives *)

Module PyFacts.

Lemma gt_spec a b : Py.gt a b = true <-> b < a.
Proof.
  unfold Py.gt. rewrite Qlt_alt. destruct (b ?= a); intuition congruence.
Qed.

Lemma gt_false a b : Py.gt a b = false <-> a <= b.
Proof.
  split.
  - intros H. apply Qnot_lt_le. intros Hlt.
    apply gt_spec in Hlt. congruence.
  - intros H. destruct (Py.gt a b) eqn:E; [|reflexivity].
    apply gt_spec in E. exfalso. exact (Qle_not_lt _ _ H E).
Qed.

Lemma lt_spec a b : Py.lt a b = true <-> a < b.
Proof. exact (gt_spec b a). Qed.


Lemma max_0_nonneg a : 0 <= Py.max 0 a.
Proof.
  unfold Py.max. destruct (Py.gt a 0) eqn:E.
  - apply gt_spec in E. apply Qlt_le_weak. exact E.
  - apply Qle_refl.
Qed.

Lemma sum_nonneg l : Forall (fun x => 0 <= x) l -> 0 <= Py.sum l.
Proof.
  induction 1 as [|x l Hx _ IH]; simpl; [apply Qle_refl|].
  lra.
Qed.

Lemma sum_nonpos l : Forall (fun x => x <= 0) l -> Py.sum l <= 0.
Proof.
  induction 1 as [|x l Hx _ IH]; simpl; [apply Qle_refl|].
  lra.
Qed.


Lemma sum_Permutation l1 l2 : Permutation l1 l2 -> Py.sum l1 == Py.sum l2.
Proof.
  induction 1 as [|x l1 l2 _ IH|x y l|l1 l2 l3 _ IH1 _ IH2]; simpl.
  - reflexivity.
  - rewrite IH. reflexivity.
  - ring.
  - rewrite IH1. exact IH2.
Qed.

Lemma dict_sum_empty : Py.dict_sum ∅ = 0.
Proof. unfold Py.dict_sum. rewrite map_to_list_empty. reflexivity. Qed.


End PyFacts.

(** ** The key orders are strict total orders *)

Class CmpLaws (K : Type) `{Cmp K} : Prop := {
  cmp_eq_iff : forall a b : K, cmp a b = Eq <-> a = b;
  cmp_antisym : forall a b : K, cmp b a = CompOpp (cmp a b);
  cmp_lt_trans : forall a b c : K, cmp a b = Lt -> cmp b c = Lt -> cmp a c = Lt
}.

Lemma ascii_compare_lt_trans (a b c : ascii) :
  Ascii.compare a b = Lt -> Ascii.compare b c = Lt -> Ascii.compare a c = Lt.
Proof.
  unfold Ascii.compare. rewrite !N.compare_lt_iff. lia.
Qed.

Lemma ascii_compare_refl (a : ascii) : Ascii.compare a a = Eq.
Proof. unfold Ascii.compare. apply N.compare_refl. Qed.

Lemma string_compare_refl (a : string) : String.compare a a = Eq.
Proof.
  induction a as [|x a IH]; simpl; [reflexivity|].
  rewrite ascii_compare_refl. exact IH.
Qed.

Lemma string_compare_lt_trans (a b c : string) :
  String.compare a b = Lt -> String.compare b c = Lt -> String.compare a c = Lt.
Proof.
  revert b c. induction a as [|x a IH]; intros [|y b] [|z c]; simpl;
    try congruence.
  destruct (Ascii.compare x y) eqn:Exy; try discriminate;
    destruct (Ascii.compare y z) eqn:Eyz; try discriminate; intros H1 H2.
  - apply Ascii.compare_eq_iff in Exy, Eyz. subst.
    rewrite ascii_compare_refl. eapply IH; eassumption.
  - apply Ascii.compare_eq_iff in Exy. subst. rewrite Eyz. reflexivity.
  - apply Ascii.compare_eq_iff in Eyz. subst. rewrite Exy. reflexivity.
  - rewrite (ascii_compare_lt_trans x y z Exy Eyz). reflexivity.
Qed.

#[global] Instance string_cmp_laws : CmpLaws string.
Proof.
  split.
  - intros a b. split; [apply String.compare_eq_iff|].
    intros ->. apply string_compare_refl.
  - intros a b. exact (String.compare_antisym b a).
  - exact string_compare_lt_trans.
Qed.

#[global] Instance Z_cmp_laws : CmpLaws Z.
Proof.
  split.
  - exact Z.compare_eq_iff.
  - intros a b. exact (Z.compare_antisym a b).
  - intros a b c. unfold cmp, Z_cmp. rewrite !Z.compare_lt_iff. lia.
Qed.

#[global] Instance pair_cmp_laws {A B} `{CmpLaws A, CmpLaws B} : CmpLaws (A * B).
Proof.
  split.
  - intros [a1 b1] [a2 b2]. unfold cmp, pair_cmp. simpl.
    destruct (cmp a1 a2) eqn:Ea.
    + apply cmp_eq_iff in Ea. subst. rewrite cmp_eq_iff.
      split; [intros ->; reflexivity | intros E; inversion E; reflexivity].
    + split; [discriminate|]. intros E. inversion E. subst.
      rewrite (proj2 (cmp_eq_iff a2 a2) eq_refl) in Ea. discriminate.
    + split; [discriminate|]. intros E. inversion E. subst.
      rewrite (proj2 (cmp_eq_iff a2 a2) eq_refl) in Ea. discriminate.
  - intros [a1 b1] [a2 b2]. unfold cmp, pair_cmp. simpl.
    rewrite (cmp_antisym a1 a2).
    destruct (cmp a1 a2); simpl; try reflexivity. apply cmp_antisym.
  - intros [a1 b1] [a2 b2] [a3 b3]. unfold cmp, pair_cmp. simpl.
    destruct (cmp a1 a2) eqn:E12; try discriminate;
      destruct (cmp a2 a3) eqn:E23; try discriminate; intros Hb12 Hb23.
    + apply cmp_eq_iff in E12, E23. subst.
      rewrite (proj2 (cmp_eq_iff a3 a3) eq_refl). eapply cmp_lt_trans; eassumption.
    + apply cmp_eq_iff in E12. subst. rewrite E23. reflexivity.
    + apply cmp_eq_iff in E23. subst. rewrite E12. reflexivity.
    + rewrite (cmp_lt_trans a1 a2 a3 E12 E23). reflexivity.
Qed.

(** ** groupby *)

Module GroupByFacts.
Import Pandas.

Section Facts.
Context {A K : Type} `{CmpLaws K}.

Lemma key_eqb_eq (a b : K) : key_eqb a b = true <-> a = b.
Proof.
  unfold key_eqb. rewrite <- cmp_eq_iff.
  destruct (cmp a b); intuition congruence.
Qed.

Lemma key_eqb_refl (a : K) : key_eqb a a = true.
Proof. apply key_eqb_eq. reflexivity. Qed.

Lemma key_lt_irrefl (a : K) : ~ key_lt a a.
Proof.
  unfold key_lt. rewrite (proj2 (cmp_eq_iff a a) eq_refl). discriminate.
Qed.

Lemma cmp_gt_lt (a b : K) : cmp a b = Gt -> key_lt b a.
Proof. intros E. unfold key_lt. rewrite cmp_antisym, E. reflexivity. Qed.

(** The keys after an insertion: the old ones and the new one. *)
Lemma keys_group_insert (k : K) (r : A) gs x :
  In x (map fst (group_insert k r gs)) <-> x = k \/ In x (map fst gs).
Proof.
  induction gs as [|[k1 g1] gs IH]; simpl.
  - intuition.
  - destruct (cmp k k1) eqn:E; simpl.
    + apply cmp_eq_iff in E. subst. intuition.
    + intuition.
    + rewrite IH. intuition.
Qed.

Lemma sorted_group_insert (k : K) (r : A) gs :
  StronglySorted key_lt (map fst gs) ->
  StronglySorted key_lt (map fst (group_insert k r gs)).
Proof.
  induction gs as [|[k1 g1] gs IH]; simpl; intros Hs.
  - constructor; constructor.
  - inversion Hs as [|? ? Hs' Hall]; subst.
    destruct (cmp k k1) eqn:E; simpl.
    + exact Hs.
    + constructor; [exact Hs|]. constructor; [exact E|].
      eapply Forall_impl; [exact Hall|].
      intros y Hy. eapply cmp_lt_trans; eassumption.
    + constructor; [apply IH; exact Hs'|].
      apply List.Forall_forall. intros y Hy.
      apply keys_group_insert in Hy. destruct Hy as [-> | Hy].
      * apply cmp_gt_lt. exact E.
      * rewrite List.Forall_forall in Hall. apply Hall. exact Hy.
Qed.

Lemma groupby_sorted (key : A -> option K) rows :
  StronglySorted key_lt (map fst (groupby key rows)).
Proof.
  induction rows as [|r rows IH]; simpl.
  - constructor.
  - destruct (key r); [apply sorted_group_insert|]; exact IH.
Qed.

Lemma sorted_NoDup (ks : list K) : StronglySorted key_lt ks -> List.NoDup ks.
Proof.
  induction 1 as [|k ks _ IH Hall]; constructor; [|exact IH].
  intros Hin. rewrite List.Forall_forall in Hall.
  exact (key_lt_irrefl k (Hall k Hin)).
Qed.

(** Every key names one group. *)
Lemma groupby_keys_NoDup (key : A -> option K) rows :
  List.NoDup (map fst (groupby key rows)).
Proof. apply sorted_NoDup. apply groupby_sorted. Qed.

(** The keys of the groups are the keys the rows hold. *)
Lemma groupby_keys (key : A -> option K) rows x :
  In x (map fst (groupby key rows)) <-> In (Some x) (map key rows).
Proof.
  induction rows as [|r rows IH]; simpl; [reflexivity|].
  destruct (key r) as [k|].
  - rewrite keys_group_insert, IH. intuition congruence.
  - rewrite IH. intuition congruence.
Qed.

Lemma group_of_absent (k : K) (gs : list (K * list A)) :
  ~ In k (map fst gs) -> group_of k gs = [].
Proof.
  unfold group_of. induction gs as [|[k1 g1] gs IH]; simpl; [reflexivity|].
  intros Hn. destruct (key_eqb k1 k) eqn:E.
  - apply key_eqb_eq in E. subst. exfalso. apply Hn. left. reflexivity.
  - apply IH. intros Hin. apply Hn. right. exact Hin.
Qed.

Lemma group_of_In (k : K) g (gs : list (K * list A)) :
  List.NoDup (map fst gs) -> In (k, g) gs -> group_of k gs = g.
Proof.
  unfold group_of. induction gs as [|[k1 g1] gs IH]; simpl; [tauto|].
  intros Hnd [Heq | Hin].
  - inversion Heq; subst. rewrite key_eqb_refl. reflexivity.
  - inversion Hnd as [|? ? Hnotin Hnd']; subst.
    destruct (key_eqb k1 k) eqn:E.
    + apply key_eqb_eq in E. subst. exfalso. apply Hnotin.
      apply (in_map fst) in Hin. exact Hin.
    + apply IH; assumption.
Qed.

(** What an insertion does to the group of each key. *)
Lemma group_of_insert (k k' : K) (r : A) gs :
  StronglySorted key_lt (map fst gs) ->
  group_of k' (group_insert k r gs) =
  if key_eqb k k' then r :: group_of k' gs else group_of k' gs.
Proof.
  induction gs as [|[k1 g1] gs IH]; simpl; intros Hs.
  - unfold group_of. simpl. destruct (key_eqb k k'); reflexivity.
  - inversion Hs as [|? ? Hs' Hall]; subst.
    destruct (cmp k k1) eqn:E.
    + apply cmp_eq_iff in E. subst k1. unfold group_of. simpl.
      destruct (key_eqb k k'); reflexivity.
    + destruct (key_eqb k k') eqn:Ek.
      * apply key_eqb_eq in Ek. subst k'.
        rewrite (group_of_absent k ((k1, g1) :: gs)).
        { unfold group_of. simpl. rewrite key_eqb_refl. reflexivity. }
        simpl. intros [-> | Hin].
        { exact (key_lt_irrefl k E). }
        rewrite List.Forall_forall in Hall.
        apply (key_lt_irrefl k). eapply cmp_lt_trans; [exact E|].
        apply Hall. exact Hin.
      * unfold group_of. simpl. rewrite Ek. reflexivity.
    + specialize (IH Hs'). unfold group_of in *. simpl.
      destruct (key_eqb k1 k') eqn:E1.
      * apply key_eqb_eq in E1. subst k'.
        destruct (key_eqb k k1) eqn:Ek; [|reflexivity].
        apply key_eqb_eq in Ek. subst k1.
        rewrite (proj2 (cmp_eq_iff k k) eq_refl) in E. discriminate.
      * exact IH.
Qed.

(** The group of a key holds the rows with that key, in the order of the
    frame. *)
Lemma group_of_groupby (key : A -> option K) rows k :
  group_of k (groupby key rows) =
  List.filter (fun r => has_key k (key r)) rows.
Proof.
  induction rows as [|r rows IH]; simpl; [reflexivity|].
  destruct (key r) as [k'|]; simpl.
  - rewrite group_of_insert by apply groupby_sorted.
    rewrite IH. reflexivity.
  - exact IH.
Qed.

Lemma groupby_In (key : A -> option K) rows k g :
  In (k, g) (groupby key rows) ->
  g = List.filter (fun r => has_key k (key r)) rows.
Proof.
  intros Hin. rewrite <- group_of_groupby. symmetry.
  apply group_of_In; [apply groupby_keys_NoDup | exact Hin].
Qed.

Lemma selected_sum_insert P f (k : K) (r : A) gs :
  selected_sum P f (group_insert k r gs) ==
  (if P k then f r else 0) + selected_sum P f gs.
Proof.
  unfold selected_sum. induction gs as [|[k1 g1] gs IH]; simpl.
  - destruct (P k); simpl; ring.
  - destruct (cmp k k1) eqn:E; simpl.
    + apply cmp_eq_iff in E. subst k1. destruct (P k); simpl; ring.
    + destruct (P k); simpl; ring.
    + destruct (P k1); simpl; rewrite IH; ring.
Qed.

(** Summed over the selected groups, every row that has a key counts
    once. *)
Lemma selected_sum_groupby P f (key : A -> option K) rows :
  selected_sum P f (groupby key rows) ==
  Py.sum (map f (List.filter (fun r => key_test P (key r)) rows)).
Proof.
  induction rows as [|r rows IH]; simpl; [reflexivity|].
  destruct (key r) as [k|]; simpl.
  - rewrite selected_sum_insert, IH.
    destruct (P k); simpl; ring.
  - exact IH.
Qed.
End Facts.

End GroupByFacts.

(** ** Series *)

Module SeriesFacts.
Import Pandas.


Lemma to_dict_absent k (s : Series) :
  ~ In k (map fst s) -> to_dict s !! k = None.
Proof.
  intros Hn. unfold to_dict. apply not_elem_of_list_to_map_1.
  intros Hin. apply Hn. apply list_elem_of_In in Hin. exact Hin.
Qed.



(** Reading [s.drop(k)] back. *)
Lemma drop_lookup_eq k (s : Series) : to_dict (series_drop k s) !! k = None.
Proof.
  apply to_dict_absent. unfold series_drop. intros Hin.
  apply in_map_iff in Hin. destruct Hin as [[k1 v1] [Hk Hin]].
  simpl in Hk. subst k1. apply filter_In in Hin. destruct Hin as [_ Hb].
  simpl in Hb. rewrite String.eqb_refl in Hb. discriminate.
Qed.


(** The labels after each operation. *)
Lemma labels_abs (s : Series) : map fst (series_abs s) = map fst s.
Proof. unfold series_abs. rewrite map_map. reflexivity. Qed.

Lemma labels_drop k (s : Series) :
  map fst (series_drop k s) =
  List.filter (fun c => negb (String.eqb c k)) (map fst s).
Proof.
  unfold series_drop. induction s as [|[k1 v1] s IH]; simpl; [reflexivity|].
  destruct (String.eqb k1 k); simpl; rewrite IH; reflexivity.
Qed.

Lemma labels_setitem k v (s : Series) :
  map fst (series_setitem k v s) =
  if existsb (fun kv => String.eqb (fst kv) k) s
  then map fst s else map fst s ++ [k].
Proof.
  unfold series_setitem.
  destruct (existsb (fun kv => String.eqb (fst kv) k) s).
  - rewrite map_map. apply map_ext. intros [k1 v1]. simpl.
    destruct (String.eqb k1 k); reflexivity.
  - rewrite map_app. reflexivity.
Qed.

Lemma NoDup_drop k (s : Series) :
  NoDup (map fst s) -> NoDup (map fst (series_drop k s)).
Proof.
  rewrite !NoDup_ListNoDup. intros Hnd. rewrite labels_drop.
  apply List.NoDup_filter. exact Hnd.
Qed.

Lemma NoDup_abs (s : Series) :
  NoDup (map fst s) -> NoDup (map fst (series_abs s)).
Proof. rewrite labels_abs. tauto. Qed.

Lemma NoDup_setitem k v (s : Series) :
  NoDup (map fst s) -> NoDup (map fst (series_setitem k v s)).
Proof.
  intros Hnd. rewrite labels_setitem.
  destruct (existsb (fun kv => String.eqb (fst kv) k) s) eqn:E; [exact Hnd|].
  apply NoDup_app. split; [exact Hnd|]. split.
  - intros x Hx Hk. apply list_elem_of_In in Hx, Hk.
    destruct Hk as [<- | []].
    apply in_map_iff in Hx. destruct Hx as [[k1 v1] [Hk Hin]]. simpl in Hk.
    subst k1. assert (Ht : existsb (fun kv => String.eqb (fst kv) k) s = true).
    { apply existsb_exists. exists (k, v1). split; [exact Hin|].
      apply String.eqb_refl. }
    congruence.
  - apply NoDup_singleton.
Qed.

(** A series with distinct labels and the dict made of it sum to the same
    number. *)
Lemma to_dict_sum (s : Series) :
  NoDup (map fst s) -> Py.dict_sum (to_dict s) == series_sum s.
Proof.
  intros Hnd. unfold Py.dict_sum, series_sum, to_dict.
  apply PyFacts.sum_Permutation. apply Permutation_map.
  apply map_to_list_to_map. exact Hnd.
Qed.

(** The entries of the dict are entries of the series. *)
Lemma to_dict_lookup_In (s : Series) k v :
  to_dict s !! k = Some v -> In (k, v) s.
Proof.
  intros Hl. unfold to_dict in Hl. apply elem_of_list_to_map_2 in Hl.
  apply list_elem_of_In. exact Hl.
Qed.

Lemma abs_values_nonneg (s : Series) :
  Forall (fun kv => 0 <= snd kv) (series_abs s).
Proof.
  unfold series_abs. apply List.Forall_forall. intros kv Hin.
  apply in_map_iff in Hin. destruct Hin as [[k1 v1] [<- _]]. simpl.
  apply Qabs_nonneg.
Qed.

Lemma drop_values_nonneg k (s : Series) :
  Forall (fun kv => 0 <= snd kv) s ->
  Forall (fun kv => 0 <= snd kv) (series_drop k s).
Proof.
  rewrite !List.Forall_forall. intros Hs kv Hin. apply Hs.
  unfold series_drop in Hin. apply filter_In in Hin. tauto.
Qed.

Lemma setitem_values_nonneg k v (s : Series) :
  0 <= v ->
  Forall (fun kv => 0 <= snd kv) s ->
  Forall (fun kv => 0 <= snd kv) (series_setitem k v s).
Proof.
  intros Hv. rewrite !List.Forall_forall. intros Hs kv Hin.
  unfold series_setitem in Hin.
  destruct (existsb (fun kv => String.eqb (fst kv) k) s).
  - apply in_map_iff in Hin. destruct Hin as [[k1 v1] [<- Hin]].
    destruct (String.eqb (fst (k1, v1)) k); simpl; [exact Hv|].
    apply (Hs (k1, v1)). exact Hin.
  - apply in_app_iff in Hin. destruct Hin as [Hin | [<- | []]].
    + apply Hs. exact Hin.
    + exact Hv.
Qed.

Lemma sum_values_nonneg (s : Series) :
  Forall (fun kv => 0 <= snd kv) s -> 0 <= series_sum s.
Proof.
  intros Hs. unfold series_sum. apply PyFacts.sum_nonneg.
  rewrite List.Forall_forall in *. intros x Hin.
  apply in_map_iff in Hin. destruct Hin as [kv [<- Hin]]. apply Hs. exact Hin.
Qed.

End SeriesFacts.

(** ** The metrics engine *)

Module EngineFacts.
Import Pandas.

(** The fields of the record in terms of the intermediate values. *)
Lemma spending_by_category_eq self data :
  spending_by_category (_calculate_metrics self data) =
  to_dict (adjusted_spending_by_category data).
Proof. reflexivity. Qed.

Lemma income_by_category_eq self data :
  income_by_category (_calculate_metrics self data) =
  to_dict (adjusted_income_by_category data).
Proof. reflexivity. Qed.

Lemma total_spending_eq self data :
  total_spending (_calculate_metrics self data) =
  series_sum (adjusted_spending_by_category data).
Proof. reflexivity. Qed.

Lemma total_income_eq self data :
  total_income (_calculate_metrics self data) =
  series_sum (adjusted_income_by_category data).
Proof. reflexivity. Qed.


Lemma net_loan_spending_eq self data :
  net_loan_spending data =
  total_lending (_calculate_metrics self data)
  - repaid_lending (_calculate_metrics self data).
Proof. reflexivity. Qed.

Lemma outstanding_lending_eq self data :
  outstanding_lending (_calculate_metrics self data) =
  Py.max 0 (net_loan_spending data).
Proof. reflexivity. Qed.

Lemma excess_repayment_eq self data :
  excess_repayment (_calculate_metrics self data) =
  Py.max 0 (- net_loan_spending data).
Proof. reflexivity. Qed.

(** The labels of a grouped sum are the keys of the groups. *)
Lemma labels_groupby_sum {A} (key : A -> option string) col rows :
  map fst (groupby_sum key col rows) = map fst (groupby key rows).
Proof. unfold groupby_sum. rewrite map_map. reflexivity. Qed.

Lemma groupby_sum_NoDup {A} (key : A -> option string) col rows :
  NoDup (map fst (groupby_sum key col rows)).
Proof.
  rewrite labels_groupby_sum. apply NoDup_ListNoDup.
  apply GroupByFacts.groupby_keys_NoDup.
Qed.

(** The labels of the adjusted series are pairwise distinct. *)
Lemma adjusted_labels_NoDup data :
  NoDup (map fst (adjusted_spending_by_category data)) /\
  NoDup (map fst (adjusted_income_by_category data)).
Proof.
  split.
  - unfold adjusted_spending_by_category.
    destruct (Py.gt (net_loan_spending data) 0).
    + apply SeriesFacts.NoDup_setitem, SeriesFacts.NoDup_abs, groupby_sum_NoDup.
    + apply SeriesFacts.NoDup_drop, SeriesFacts.NoDup_abs, groupby_sum_NoDup.
  - apply SeriesFacts.NoDup_drop, groupby_sum_NoDup.
Qed.

(** The values of the adjusted spending series are magnitudes. *)
Lemma adjusted_spending_nonneg data :
  Forall (fun kv => 0 <= snd kv) (adjusted_spending_by_category data).
Proof.
  unfold adjusted_spending_by_category.
  destruct (Py.gt (net_loan_spending data) 0) eqn:E.
  - apply SeriesFacts.setitem_values_nonneg.
    + apply PyFacts.gt_spec in E. apply Qlt_le_weak. exact E.
    + apply SeriesFacts.abs_values_nonneg.
  - apply SeriesFacts.drop_values_nonneg, SeriesFacts.abs_values_nonneg.
Qed.


Lemma income_of_category c df :
  map amount (with_category c (income_data (_prepare_data df))) =
  map tx_amount
      (List.filter (fun t => Py.gt (tx_amount t) 0
                             && Pandas.eq_cell (tx_category t) c) df).
Proof.
  unfold with_category, income_data, _prepare_data.
  induction df as [|t df IH]; [reflexivity|].
  cbn [map List.filter is_income category].
  destruct (Py.gt (tx_amount t) 0); cbn [andb List.filter category].
  - destruct (Pandas.eq_cell (tx_category t) c); cbn [map amount];
      rewrite IH; reflexivity.
  - exact IH.
Qed.


Lemma income_amounts_nonneg c df :
  Forall (fun x => 0 <= x)
    (map tx_amount
       (List.filter (fun t => Py.gt (tx_amount t) 0
                              && Pandas.eq_cell (tx_category t) c) df)).
Proof.
  apply List.Forall_forall. intros x Hin.
  apply in_map_iff in Hin. destruct Hin as [t [<- Hin]].
  apply filter_In in Hin. destruct Hin as [_ Hb].
  apply andb_true_iff in Hb. destruct Hb as [Hb _].
  apply PyFacts.gt_spec in Hb. apply Qlt_le_weak. exact Hb.
Qed.






Lemma repaid_lending_spec self df :
  repaid_lending (_calculate_metrics self (_prepare_data df)) =
  repayment_income_of df.
Proof.
  change (Py.sum (map amount
            (with_category "Lending, renting" (income_data (_prepare_data df))))
          = repayment_income_of df).
  rewrite income_of_category. reflexivity.
Qed.

(** The adjusted totals are the sums of the values of the returned maps. *)
Lemma total_spending_dict_sum self data :
  total_spending (_calculate_metrics self data)
  == Py.dict_sum (spending_by_category (_calculate_metrics self data)).
Proof.
  rewrite spending_by_category_eq, total_spending_eq. symmetry.
  apply SeriesFacts.to_dict_sum. apply adjusted_labels_NoDup.
Qed.

Lemma total_income_dict_sum self data :
  total_income (_calculate_metrics self data)
  == Py.dict_sum (income_by_category (_calculate_metrics self data)).
Proof.
  rewrite income_by_category_eq, total_income_eq. symmetry.
  apply SeriesFacts.to_dict_sum. apply adjusted_labels_NoDup.
Qed.

(** The spending-side figures of a record of exact arithmetic are
    magnitudes. *)
Lemma magnitudes_nonneg (self : FinancialAnalyzer) (df : list Transaction) :
  let m := _calculate_metrics self (_prepare_data df) in
  map_Forall (fun _ v => 0 <= v) (spending_by_category m) /\
  0 <= total_spending m /\
  0 <= charity_spending m /\
  0 <= total_lending m /\
  0 <= repaid_lending m /\
  0 <= outstanding_lending m /\
  0 <= excess_repayment m.
Proof.
  intros m.
  pose proof (adjusted_spending_nonneg (_prepare_data df)) as Hadj.
  split; [|split; [|split; [|split; [|split; [|split]]]]].
  - intros k v Hl. unfold m in Hl.
    rewrite spending_by_category_eq in Hl.
    apply SeriesFacts.to_dict_lookup_In in Hl.
    rewrite List.Forall_forall in Hadj. exact (Hadj (k, v) Hl).
  - unfold m. rewrite total_spending_eq.
    apply SeriesFacts.sum_values_nonneg. exact Hadj.
  - apply Qabs_nonneg.
  - apply Qabs_nonneg.
  - unfold m. rewrite repaid_lending_spec.
    apply PyFacts.sum_nonneg. apply income_amounts_nonneg.
  - apply PyFacts.max_0_nonneg.
  - apply PyFacts.max_0_nonneg.
Qed.

End EngineFacts.

(** ** The simplified split *)

Module SplitFacts.











End SplitFacts.

(** ** Subscripting a metrics record *)

Module DictFacts.

Lemma getitem_lending_details m :
  getitem m "lending_details" = Py.KeyError "lending_details".
Proof. reflexivity. Qed.

Lemma lending_fields_ok m : lending_fields m = Py.Ok (lending_details m).
Proof. reflexivity. Qed.

Lemma for_each_ok {A B} (f : A -> Py.result B) (g : A -> B) l :
  (forall a, f a = Py.Ok (g a)) -> Py.for_each f l = Py.Ok (map g l).
Proof.
  intros Hf. induction l as [|a l IH]; [reflexivity|].
  cbn [Py.for_each map]. rewrite Hf, IH. reflexivity.
Qed.

(** The first definition of [get_lending_summary], had it stayed bound,
    returns the four lending fields of the all-time record and of every
    monthly record. *)
Lemma get_lending_summary_shadowed_ok self :
  get_lending_summary_shadowed self =
  Py.Ok (lending_details (analyze_all_time self),
         map (fun md => (fst md, lending_details (snd md)))
             (analyze_by_period month self)).
Proof.
  unfold get_lending_summary_shadowed.
  rewrite lending_fields_ok.
  change (Py.Ok (lending_details (analyze_all_time self)) ≫= ?k)
    with (k (lending_details (analyze_all_time self))).
  cbv beta.
  rewrite (for_each_ok _ (fun md => (fst md, lending_details (snd md))))
    by reflexivity.
  reflexivity.
Qed.

End DictFacts.

(** ** Period partitions *)

Module PartitionFacts.
Import Pandas.

Lemma filter_map_comm {A B} (p : B -> bool) (h : A -> B) l :
  List.filter p (map h l) = map h (List.filter (fun a => p (h a)) l).
Proof.
  induction l as [|a l IH]; [reflexivity|].
  cbn [map List.filter]. destruct (p (h a)); cbn [map]; rewrite IH; reflexivity.
Qed.

Lemma sum_map_Qeq {A} (f g : A -> Q) l :
  (forall a, f a == g a) -> Py.sum (map f l) == Py.sum (map g l).
Proof.
  intros Hfg. induction l as [|a l IH]; [reflexivity|].
  cbn [map]. change (f a + Py.sum (map f l) == g a + Py.sum (map g l)).
  rewrite Hfg, IH. reflexivity.
Qed.

Lemma sum_filter_weight {A} (p : A -> bool) (f : A -> Q) l :
  Py.sum (map f (List.filter p l))
  == Py.sum (map (fun a => if p a then f a else 0) l).
Proof.
  induction l as [|a l IH]; [reflexivity|].
  cbn [map List.filter].
  change (Py.sum (map f (if p a then a :: List.filter p l else List.filter p l))
          == (if p a then f a else 0)
             + Py.sum (map (fun a => if p a then f a else 0) l)).
  rewrite <- IH. destruct (p a); cbn [map].
  - reflexivity.
  - ring.
Qed.

(** The sum of a grouped sum from which one label was dropped: every row
    with another key counts once. *)
Lemma sum_drop_groupby_sum {A} (key : A -> option string) (col : A -> Q)
  k rows :
  series_sum (series_drop k (groupby_sum key col rows))
  == Py.sum (map col
               (List.filter
                  (fun r => key_test (fun k' => negb (String.eqb k' k)) (key r))
                  rows)).
Proof.
  unfold series_sum, series_drop, groupby_sum.
  rewrite filter_map_comm, map_map. cbn [fst snd].
  exact (GroupByFacts.selected_sum_groupby
           (fun k' => negb (String.eqb k' k)) col key rows).
Qed.

(** The adjusted income of a frame is the sum of what its rows add. *)
Lemma total_income_weight self data :
  total_income (_calculate_metrics self data)
  == Py.sum (map income_weight data).
Proof.
  rewrite EngineFacts.total_income_eq. unfold adjusted_income_by_category.
  rewrite sum_drop_groupby_sum. unfold income_data.
  rewrite sum_filter_weight.
  rewrite (sum_filter_weight is_income).
  apply sum_map_Qeq. intros r. unfold income_weight, Config.lending_category.
  destruct (is_income r); cbn [andb]; reflexivity.
Qed.




End PartitionFacts.

(** ** The inputs of the engine *)

Module CoverageFacts.

(** The all-time record is the engine run on the prepared table. *)
Lemma analyze_all_time_prepared df :
  analyze_all_time (__init__ df)
  = _calculate_metrics (__init__ df) (_prepare_data df).
Proof. reflexivity. Qed.

(** Every record of a period result is the engine run on the prepared rows
    of a part of the table: what holds of the engine on every prepared
    table holds of every record the analyzer returns. *)
Lemma period_records_prepared {K} `{CmpLaws K} (period : Row -> option K) df :
  Forall (fun kr => exists df',
            snd kr = _calculate_metrics (__init__ df) (_prepare_data df'))
         (analyze_by_period period (__init__ df)).
Proof.
  apply List.Forall_forall. intros [k m] Hin.
  unfold analyze_by_period in Hin. apply in_map_iff in Hin.
  destruct Hin as [[k' g] [Heq Hin]]. cbn [fst snd] in Heq.
  inversion Heq; subst k' m. clear Heq.
  apply GroupByFacts.groupby_In in Hin.
  cbn [processed_data __init__] in Hin. unfold _prepare_data in Hin.
  rewrite PartitionFacts.filter_map_comm in Hin.
  eexists. cbn [snd]. rewrite Hin. reflexivity.
Qed.

End CoverageFacts.

(** ** The end-to-end scenarios of the specification *)

Module Scenarios.

Example scenario_A_metrics :
  let m := analyze_all_time (__init__ scenario_A) in
  outstanding_lending m = 300 /\
  excess_repayment m = 0 /\
  spending_by_category m !! "Loan, interests" = Some 300.
Proof. vm_compute. repeat split. Qed.

Example scenario_B_metrics :
  let m := analyze_all_time (__init__ scenario_B) in
  outstanding_lending m = 0 /\
  excess_repayment m = 300 /\
  spending_by_category m !! "Loan, interests" = None /\
  income_by_category m !! "Lending, renting" = None.
Proof. vm_compute. repeat split. Qed.

Example scenario_C_metrics :
  let m := analyze_all_time (__init__ scenario_C) in
  total_spending m = 500 /\
  charity_spending m = 100 /\
  (exists q, charity_percentage m = Py.Fin q /\ q == 20) /\
  simplified_spending m
  = {[ "charity" := 100; "lending" := 0; "normal" := 400 ]}.
Proof.
  vm_compute. split; [reflexivity|]. split; [reflexivity|].
  split; [|reflexivity]. eexists. split; reflexivity.
Qed.

Example sample_ledger_months :
  map fst (analyze_by_period month (__init__ sample_ledger))
  = [(2024, 11); (2024, 12); (2025, 1); (2025, 2)]%Z.
Proof. reflexivity. Qed.

(** The transaction without a date is counted all-time and in no month;
    the transaction without a category is counted, and its amount is in
    no total. *)
Example loose_ledger_metrics :
  let self := __init__ loose_ledger in
  let m := analyze_all_time self in
  transaction_count m = 3%nat /\
  spending_by_category m = {[ "Food" := 6 ]} /\
  total_spending m = 6 /\
  total_spending_raw (raw_totals m) = 6 /\
  map (fun kr => (fst kr, transaction_count (snd kr),
                  total_spending (snd kr)))
      (analyze_by_period month self)
  = [ ((2025, 3)%Z, 2%nat, 4) ].
Proof. vm_compute. repeat split. Qed.

(** On an [int64] column the two expenses of [overflow_ledger] sum to
    [-2^63], whose magnitude wraps; in exact arithmetic the spending is
    [2^63]. *)
Example overflow_ledger_metrics :
  Int64.total_spending (Int64._calculate_metrics (_prepare_data overflow_ledger))
  = (- 2 ^ 63)%Z /\
  total_spending
    (_calculate_metrics (__init__ overflow_ledger)
       (_prepare_data overflow_ledger))
  == inject_Z (2 ^ 63).
Proof. split; vm_compute; reflexivity. Qed.

Example scenario_A_int64 :
  let m := Int64._calculate_metrics (_prepare_data scenario_A) in
  Int64.outstanding_lending m = 300%Z /\
  Int64.excess_repayment m = 0%Z /\
  Int64.spending_by_category m !! "Loan, interests" = Some 300%Z /\
  Int64.total_spending m = 300%Z.
Proof. vm_compute. repeat split. Qed.

Example scenario_A_lending_summary_shadowed :
  get_lending_summary_shadowed (__init__ scenario_A)
  = Py.Ok ({| ld_total_lending := VNum 500;
              ld_repaid_lending := VNum 200;
              ld_outstanding_lending := VNum 300;
              ld_excess_repayment := VNum 0 |},
           [ ((2025, 3)%Z,
              {| ld_total_lending := VNum 500;
                 ld_repaid_lending := VNum 200;
                 ld_outstanding_lending := VNum 300;
                 ld_excess_repayment := VNum 0 |}) ]).
Proof. vm_compute. reflexivity. Qed.

End Scenarios.

(** ** Sums *)

Module SumFacts.

Lemma sum_cons x l : Py.sum (x :: l) = x + Py.sum l.
Proof. reflexivity. Qed.

Lemma sum_map_Qeq_in {A} (f g : A -> Q) l :
  (forall a, In a l -> f a == g a) -> Py.sum (map f l) == Py.sum (map g l).
Proof.
  induction l as [|a l IH]; intros Hfg; [reflexivity|].
  cbn [map]. rewrite !sum_cons.
  rewrite (Hfg a (or_introl eq_refl)), IH; [reflexivity|].
  intros b Hb. apply Hfg. right. exact Hb.
Qed.


Lemma sum_map_opp {A} (f : A -> Q) l :
  Py.sum (map (fun a => - f a) l) == - Py.sum (map f l).
Proof.
  induction l as [|a l IH]; [reflexivity|].
  cbn [map]. rewrite !sum_cons, IH. ring.
Qed.

Lemma sum_map_le {A} (f g : A -> Q) l :
  (forall a, In a l -> f a <= g a) -> Py.sum (map f l) <= Py.sum (map g l).
Proof.
  induction l as [|a l IH]; intros Hfg; [apply Qle_refl|].
  cbn [map]. rewrite !sum_cons.
  apply Qplus_le_compat.
  - apply Hfg. left. reflexivity.
  - apply IH. intros b Hb. apply Hfg. right. exact Hb.
Qed.

(** A sum splits along a test. *)
Lemma sum_split {A} (p : A -> bool) (f : A -> Q) l :
  Py.sum (map f l)
  == Py.sum (map f (List.filter p l))
     + Py.sum (map f (List.filter (fun a => negb (p a)) l)).
Proof.
  induction l as [|a l IH]; [reflexivity|].
  cbn [map List.filter]. rewrite sum_cons, IH.
  destruct (p a); cbn [negb map]; rewrite sum_cons; ring.
Qed.

(** A sum of negative numbers, at least one, is negative. *)
Lemma sum_neg l : l <> [] -> Forall (fun x => x < 0) l -> Py.sum l < 0.
Proof.
  intros Hne Hall. destruct Hall as [|x l Hx Hall]; [congruence|].
  rewrite sum_cons.
  assert (Hl : Py.sum l <= 0).
  { apply PyFacts.sum_nonpos. eapply Forall_impl; [exact Hall|].
    intros y Hy. apply Qlt_le_weak. exact Hy. }
  lra.
Qed.

Lemma sum_pos l : l <> [] -> Forall (fun x => 0 < x) l -> 0 < Py.sum l.
Proof.
  intros Hne Hall. destruct Hall as [|x l Hx Hall]; [congruence|].
  rewrite sum_cons.
  assert (Hl : 0 <= Py.sum l).
  { apply PyFacts.sum_nonneg. eapply Forall_impl; [exact Hall|].
    intros y Hy. apply Qlt_le_weak. exact Hy. }
  lra.
Qed.

Lemma max_Qeq a b : a == b -> Py.max 0 a == Py.max 0 b.
Proof.
  intros Hab. unfold Py.max.
  destruct (Py.gt a 0) eqn:Ea; destruct (Py.gt b 0) eqn:Eb;
    try (apply PyFacts.gt_spec in Ea); try (apply PyFacts.gt_spec in Eb);
    try (apply PyFacts.gt_false in Ea); try (apply PyFacts.gt_false in Eb);
    lra.
Qed.



End SumFacts.

(** ** Prepared rows and grouped sums *)

Module RowFacts.
Import Pandas.

Lemma prepare_prepared df : Forall prepared (_prepare_data df).
Proof.
  apply List.Forall_forall. intros r Hin. unfold _prepare_data in Hin.
  apply in_map_iff in Hin. destruct Hin as [t [<- _]]. split; reflexivity.
Qed.


Lemma expense_neg r : prepared r -> is_expense r = true -> amount r < 0.
Proof. intros [He _] H. rewrite He in H. apply PyFacts.lt_spec. exact H. Qed.

Lemma income_pos r : prepared r -> is_income r = true -> 0 < amount r.
Proof. intros [_ Hi] H. rewrite Hi in H. apply PyFacts.gt_spec. exact H. Qed.

Lemma expenses_neg data :
  Forall prepared data -> Forall (fun r => amount r < 0) (expenses data).
Proof.
  rewrite !List.Forall_forall. intros H r Hin. unfold expenses in Hin.
  apply filter_In in Hin. destruct Hin as [Hin He].
  apply expense_neg; [apply H; exact Hin | exact He].
Qed.

Lemma income_data_pos data :
  Forall prepared data -> Forall (fun r => 0 < amount r) (income_data data).
Proof.
  rewrite !List.Forall_forall. intros H r Hin. unfold income_data in Hin.
  apply filter_In in Hin. destruct Hin as [Hin He].
  apply income_pos; [apply H; exact Hin | exact He].
Qed.

Section Groups.
Context {A K : Type} `{CmpLaws K}.

(** The rows of a group are rows of the frame with the key of the group,
    and there is at least one. *)
Lemma has_key_eq (k : K) cell : has_key k cell = true <-> cell = Some k.
Proof.
  destruct cell as [k'|]; cbn.
  - rewrite GroupByFacts.key_eqb_eq. split; congruence.
  - split; discriminate.
Qed.

Lemma group_rows (key : A -> option K) rows k g :
  In (k, g) (groupby key rows) ->
  g <> [] /\ forall r, In r g -> In r rows /\ key r = Some k.
Proof.
  intros Hin. pose proof (GroupByFacts.groupby_In key rows k g Hin) as Hg.
  split.
  - assert (Hk : In k (map fst (groupby key rows))).
    { apply in_map_iff. exists (k, g). split; [reflexivity | exact Hin]. }
    apply (GroupByFacts.groupby_keys key rows k) in Hk. apply in_map_iff in Hk.
    destruct Hk as [r [Hkr Hr]]. intros Hnil.
    assert (Hrg : In r g).
    { rewrite Hg. apply filter_In. split; [exact Hr|].
      apply has_key_eq. exact Hkr. }
    rewrite Hnil in Hrg. exact Hrg.
  - intros r Hr. rewrite Hg in Hr. apply filter_In in Hr.
    destruct Hr as [Hr Hk]. apply has_key_eq in Hk. tauto.
Qed.
End Groups.

(** The entries of a grouped sum that a test on the label selects sum to
    the sum over the rows whose key passes the test. *)
Lemma sum_filter_groupby_sum {A} (P : string -> bool) (key : A -> option string)
  (col : A -> Q) rows :
  Py.sum (map snd (List.filter (fun kv => P (fst kv))
                               (groupby_sum key col rows)))
  == Py.sum (map col (List.filter (fun r => key_test P (key r)) rows)).
Proof.
  unfold groupby_sum.
  rewrite PartitionFacts.filter_map_comm, map_map. cbn [fst snd].
  exact (GroupByFacts.selected_sum_groupby P col key rows).
Qed.

Lemma filter_true {A} (l : list A) : List.filter (fun _ => true) l = l.
Proof. induction l as [|a l IH]; [reflexivity|]. cbn. rewrite IH. reflexivity. Qed.

(** A grouped sum sums to the sum over the rows that have a key. *)
Lemma series_sum_groupby_sum {A} (key : A -> option string) (col : A -> Q)
  rows :
  series_sum (groupby_sum key col rows)
  == Py.sum (map col (List.filter (fun r => notna (key r)) rows)).
Proof.
  pose proof (sum_filter_groupby_sum (fun _ => true) key col rows) as H.
  rewrite filter_true in H. exact H.
Qed.

(** An entry of a grouped sum is the sum over a group, which is not
    empty. *)
Lemma groupby_sum_entry {A} (key : A -> option string) (col : A -> Q) rows c s :
  In (c, s) (groupby_sum key col rows) ->
  exists g, g <> [] /\ (forall r, In r g -> In r rows /\ key r = Some c) /\
            s = Py.sum (map col g).
Proof.
  unfold groupby_sum. intros Hin. apply in_map_iff in Hin.
  destruct Hin as [[k g] [Heq Hin]]. cbn [fst snd] in Heq.
  inversion Heq; subst k s. clear Heq.
  exists g. destruct (group_rows key rows c g Hin) as [Hne Hrows].
  split; [exact Hne|]. split; [exact Hrows | reflexivity].
Qed.

(** The grouped sums of the expenses are negative, those of the incomes
    positive. *)
Lemma expense_sums_neg data :
  Forall prepared data ->
  Forall (fun kv => snd kv < 0) (groupby_sum category amount (expenses data)).
Proof.
  intros Hp. apply List.Forall_forall. intros [c s] Hin.
  apply groupby_sum_entry in Hin. destruct Hin as [g [Hne [Hrows ->]]].
  cbn [snd]. apply SumFacts.sum_neg.
  - intros Hnil. apply map_eq_nil in Hnil. contradiction.
  - apply List.Forall_forall. intros x Hx. apply in_map_iff in Hx.
    destruct Hx as [r [<- Hr]].
    pose proof (expenses_neg data Hp) as Hneg.
    rewrite List.Forall_forall in Hneg. apply Hneg. apply Hrows. exact Hr.
Qed.

Lemma income_sums_pos data :
  Forall prepared data ->
  Forall (fun kv => 0 < snd kv) (groupby_sum category amount (income_data data)).
Proof.
  intros Hp. apply List.Forall_forall. intros [c s] Hin.
  apply groupby_sum_entry in Hin. destruct Hin as [g [Hne [Hrows ->]]].
  cbn [snd]. apply SumFacts.sum_pos.
  - intros Hnil. apply map_eq_nil in Hnil. contradiction.
  - apply List.Forall_forall. intros x Hx. apply in_map_iff in Hx.
    destruct Hx as [r [<- Hr]].
    pose proof (income_data_pos data Hp) as Hpos.
    rewrite List.Forall_forall in Hpos. apply Hpos. apply Hrows. exact Hr.
Qed.

(** Sums of a series and of its absolute values. *)
Lemma series_sum_abs_nonpos (s : Series) :
  Forall (fun kv => snd kv <= 0) s ->
  series_sum (series_abs s) == - series_sum s.
Proof.
  unfold series_sum, series_abs. intros Hs. rewrite map_map. cbn [snd].
  rewrite <- SumFacts.sum_map_opp. apply SumFacts.sum_map_Qeq_in.
  intros kv Hin. rewrite List.Forall_forall in Hs.
  apply Qabs_neg. apply Hs. exact Hin.
Qed.

Lemma label_sum_abs_nonpos k (s : Series) :
  Forall (fun kv => snd kv <= 0) s ->
  label_sum k (series_abs s) == - label_sum k s.
Proof.
  unfold label_sum, series_abs. intros Hs.
  rewrite PartitionFacts.filter_map_comm, map_map. cbn [fst snd].
  rewrite <- SumFacts.sum_map_opp. apply SumFacts.sum_map_Qeq_in.
  intros kv Hin. rewrite List.Forall_forall in Hs.
  apply Qabs_neg. apply Hs. apply filter_In in Hin. tauto.
Qed.

(** Dropping a label takes the entries of that label off the sum. *)
Lemma series_sum_drop k (s : Series) :
  series_sum (series_drop k s) == series_sum s - label_sum k s.
Proof.
  unfold series_sum, series_drop, label_sum.
  rewrite (SumFacts.sum_split (fun kv => String.eqb (fst kv) k) snd s). ring.
Qed.

Lemma label_sum_absent k (s : Series) :
  ~ In k (map fst s) -> label_sum k s = 0 /\
  map (fun kv => if String.eqb (fst kv) k then (fst kv, 0) else kv) s = s.
Proof.
  unfold label_sum. induction s as [|[k1 v1] s IH]; intros Hn.
  - split; reflexivity.
  - cbn [map fst] in Hn. cbn [List.filter map fst].
    destruct (String.eqb k1 k) eqn:E.
    + apply String.eqb_eq in E. exfalso. apply Hn. left. exact E.
    + destruct IH as [IH1 IH2]; [intros Hin; apply Hn; right; exact Hin|].
      split; [exact IH1|]. f_equal. exact IH2.
Qed.

Lemma map_set_absent k v (s : Series) :
  ~ In k (map fst s) ->
  map (fun kv => if String.eqb (fst kv) k then (fst kv, v) else kv) s = s.
Proof.
  induction s as [|[k1 v1] s IH]; intros Hn; [reflexivity|].
  cbn [map fst] in *. destruct (String.eqb k1 k) eqn:E.
  - apply String.eqb_eq in E. exfalso. apply Hn. left. exact E.
  - f_equal. apply IH. intros Hin. apply Hn. right. exact Hin.
Qed.

(** Setting a label of a series with distinct labels replaces its
    contribution to the sum. *)
Lemma series_sum_setitem k v (s : Series) :
  List.NoDup (map fst s) ->
  series_sum (series_setitem k v s) == series_sum s - label_sum k s + v.
Proof.
  unfold series_setitem. intros Hnd.
  destruct (existsb (fun kv => String.eqb (fst kv) k) s) eqn:E.
  - induction s as [|[k1 v1] s IH]; [discriminate|].
    inversion Hnd as [|? ? Hnotin Hnd']; subst.
    cbn [existsb fst] in E. unfold series_sum, label_sum in *.
    cbn [map List.filter fst].
    destruct (String.eqb k1 k) eqn:E1.
    + apply String.eqb_eq in E1. subst k1.
      rewrite (map_set_absent k v s Hnotin).
      destruct (label_sum_absent k s Hnotin) as [H0 _].
      unfold label_sum in H0. cbn [map snd]. rewrite !SumFacts.sum_cons, H0.
      ring.
    + cbn [orb] in E. cbn [map snd]. rewrite !SumFacts.sum_cons.
      rewrite (IH Hnd' E). ring.
  - assert (Hn : ~ In k (map fst s)).
    { intros Hin. apply in_map_iff in Hin. destruct Hin as [[k1 v1] [Hk Hin]].
      cbn [fst] in Hk. subst k1.
      assert (Ht : existsb (fun kv => String.eqb (fst kv) k) s = true).
      { apply existsb_exists. exists (k, v1). split; [exact Hin|].
        apply String.eqb_refl. }
      congruence. }
    destruct (label_sum_absent k s Hn) as [H0 _].
    unfold series_sum. rewrite map_app, H0.
    rewrite (PyFacts.sum_Permutation _ (map snd [(k, v)] ++ map snd s))
      by apply Permutation_app_comm.
    cbn [map snd app]. rewrite SumFacts.sum_cons. ring.
Qed.

End RowFacts.

(** ** The fields of a record as sums over the rows *)

Module MetricFacts.
Import Pandas.

(** The magnitude of the expenses of one category. *)
Lemma category_magnitude c data :
  Forall prepared data ->
  Qabs (Py.sum (map amount (with_category c (expenses data))))
  == Py.sum (map (fun r => if is_expense r && Pandas.eq_cell (category r) c
                           then Qabs (amount r) else 0) data).
Proof.
  intros Hp.
  assert (Hneg : Forall (fun x => x <= 0)
                   (map amount (with_category c (expenses data)))).
  { apply List.Forall_forall. intros x Hx. apply in_map_iff in Hx.
    destruct Hx as [r [<- Hr]]. unfold with_category in Hr.
    apply filter_In in Hr. destruct Hr as [Hr _].
    pose proof (RowFacts.expenses_neg data Hp) as Hall.
    rewrite List.Forall_forall in Hall. apply Qlt_le_weak, Hall, Hr. }
  rewrite Qabs_neg by (apply PyFacts.sum_nonpos; exact Hneg).
  rewrite <- SumFacts.sum_map_opp. unfold with_category, expenses.
  rewrite PartitionFacts.sum_filter_weight.
  rewrite (PartitionFacts.sum_filter_weight is_expense).
  apply SumFacts.sum_map_Qeq_in. intros r Hr.
  rewrite List.Forall_forall in Hp.
  destruct (is_expense r) eqn:He; cbn [andb]; [|reflexivity].
  destruct (Pandas.eq_cell (category r) c); [|reflexivity].
  symmetry. apply Qabs_neg. apply Qlt_le_weak.
  apply RowFacts.expense_neg; [apply Hp; exact Hr | exact He].
Qed.

Lemma total_lending_rows self data :
  Forall prepared data ->
  total_lending (_calculate_metrics self data) == Py.sum (map loan_weight data).
Proof. intros Hp. exact (category_magnitude "Loan, interests" data Hp). Qed.

Lemma charity_spending_rows self data :
  Forall prepared data ->
  charity_spending (_calculate_metrics self data)
  == Py.sum (map charity_weight data).
Proof. intros Hp. exact (category_magnitude "Charity" data Hp). Qed.

Lemma repaid_lending_rows self data :
  repaid_lending (_calculate_metrics self data)
  == Py.sum (map repay_weight data).
Proof.
  change (Py.sum (map amount
            (with_category "Lending, renting" (income_data data)))
          == Py.sum (map repay_weight data)).
  unfold with_category, income_data.
  rewrite PartitionFacts.sum_filter_weight.
  rewrite (PartitionFacts.sum_filter_weight is_income).
  apply PartitionFacts.sum_map_Qeq. intros r. unfold repay_weight.
  destruct (is_income r); cbn [andb]; reflexivity.
Qed.

Lemma expense_sums_nonpos data :
  Forall prepared data ->
  Forall (fun kv => snd kv <= 0) (groupby_sum category amount (expenses data)).
Proof.
  intros Hp. eapply Forall_impl; [apply RowFacts.expense_sums_neg; exact Hp|].
  intros kv Hkv. apply Qlt_le_weak. exact Hkv.
Qed.

Lemma total_spending_raw_rows self data :
  Forall prepared data ->
  total_spending_raw (raw_totals (_calculate_metrics self data))
  == Py.sum (map expense_magnitude data).
Proof.
  intros Hp.
  change (series_sum (series_abs (groupby_sum category amount (expenses data)))
          == Py.sum (map expense_magnitude data)).
  rewrite RowFacts.series_sum_abs_nonpos by (apply expense_sums_nonpos; exact Hp).
  rewrite RowFacts.series_sum_groupby_sum.
  rewrite <- SumFacts.sum_map_opp. unfold expenses.
  rewrite PartitionFacts.sum_filter_weight.
  rewrite (PartitionFacts.sum_filter_weight is_expense).
  apply SumFacts.sum_map_Qeq_in. intros r Hr. unfold expense_magnitude.
  rewrite List.Forall_forall in Hp.
  destruct (is_expense r) eqn:He; cbn [andb]; [|reflexivity].
  destruct (notna (category r)); [|reflexivity].
  symmetry. apply Qabs_neg. apply Qlt_le_weak.
  apply RowFacts.expense_neg; [apply Hp; exact Hr | exact He].
Qed.

Lemma total_income_raw_rows self data :
  total_income_raw (raw_totals (_calculate_metrics self data))
  == Py.sum (map income_amount data).
Proof.
  change (series_sum (groupby_sum category amount (income_data data))
          == Py.sum (map income_amount data)).
  rewrite RowFacts.series_sum_groupby_sum. unfold income_data.
  rewrite PartitionFacts.sum_filter_weight.
  rewrite (PartitionFacts.sum_filter_weight is_income).
  apply PartitionFacts.sum_map_Qeq. intros r. unfold income_amount.
  destruct (is_income r); cbn [andb]; reflexivity.
Qed.

(** The loan entry of the raw spending series is the loan expense. *)
Lemma raw_loan_label_sum self data :
  Forall prepared data ->
  label_sum "Loan, interests"
    (series_abs (groupby_sum category amount (expenses data)))
  == total_lending (_calculate_metrics self data).
Proof.
  intros Hp.
  rewrite RowFacts.label_sum_abs_nonpos by (apply expense_sums_nonpos; exact Hp).
  unfold label_sum.
  rewrite (RowFacts.sum_filter_groupby_sum
             (fun k => String.eqb k "Loan, interests") category amount).
  change (- Py.sum (map amount (with_category "Loan, interests" (expenses data)))
          == Qabs (Py.sum (map amount
                     (with_category "Loan, interests" (expenses data))))).
  symmetry. apply Qabs_neg. apply PyFacts.sum_nonpos.
  apply List.Forall_forall. intros x Hx. apply in_map_iff in Hx.
  destruct Hx as [r [<- Hr]]. unfold with_category in Hr.
  apply filter_In in Hr. destruct Hr as [Hr _].
  pose proof (RowFacts.expenses_neg data Hp) as Hall.
  rewrite List.Forall_forall in Hall. apply Qlt_le_weak, Hall, Hr.
Qed.

(** The adjusted spending is the raw spending with the loan expenses
    replaced by what is outstanding of them. *)
Lemma total_spending_adjustment self data :
  Forall prepared data ->
  total_spending (_calculate_metrics self data)
  == total_spending_raw (raw_totals (_calculate_metrics self data))
     - total_lending (_calculate_metrics self data)
     + outstanding_lending (_calculate_metrics self data).
Proof.
  intros Hp. rewrite <- (raw_loan_label_sum self data Hp).
  rewrite EngineFacts.total_spending_eq, EngineFacts.outstanding_lending_eq.
  change (total_spending_raw (raw_totals (_calculate_metrics self data)))
    with (series_sum (series_abs (groupby_sum category amount (expenses data)))).
  unfold adjusted_spending_by_category, Py.max.
  destruct (Py.gt (net_loan_spending data) 0).
  - apply RowFacts.series_sum_setitem. apply NoDup_ListNoDup.
    apply SeriesFacts.NoDup_abs, EngineFacts.groupby_sum_NoDup.
  - rewrite RowFacts.series_sum_drop. ring.
Qed.



End MetricFacts.

(** ** Values of the category maps *)

Module ValueFacts.
Import Pandas.

Lemma drop_Forall (P : string * Q -> Prop) k (s : Series) :
  Forall P s -> Forall P (series_drop k s).
Proof.
  rewrite !List.Forall_forall. intros Hs kv Hin. apply Hs.
  unfold series_drop in Hin. apply filter_In in Hin. tauto.
Qed.

Lemma setitem_pos k v (s : Series) :
  0 < v ->
  Forall (fun kv => 0 < snd kv) s ->
  Forall (fun kv => 0 < snd kv) (series_setitem k v s).
Proof.
  intros Hv. rewrite !List.Forall_forall. intros Hs kv Hin.
  unfold series_setitem in Hin.
  destruct (existsb (fun kv => String.eqb (fst kv) k) s).
  - apply in_map_iff in Hin. destruct Hin as [[k1 v1] [<- Hin]].
    destruct (String.eqb (fst (k1, v1)) k); cbn [snd]; [exact Hv|].
    apply (Hs (k1, v1)). exact Hin.
  - apply in_app_iff in Hin. destruct Hin as [Hin | [<- | []]].
    + apply Hs. exact Hin.
    + exact Hv.
Qed.

Lemma adjusted_spending_pos data :
  Forall prepared data ->
  Forall (fun kv => 0 < snd kv) (adjusted_spending_by_category data).
Proof.
  intros Hp.
  assert (Habs : Forall (fun kv => 0 < snd kv)
                   (series_abs (groupby_sum category amount (expenses data)))).
  { pose proof (RowFacts.expense_sums_neg data Hp) as Hneg.
    rewrite List.Forall_forall in *. intros kv Hin. unfold series_abs in Hin.
    apply in_map_iff in Hin. destruct Hin as [[k1 v1] [<- Hin]]. cbn [snd].
    specialize (Hneg (k1, v1) Hin). cbn [snd] in Hneg.
    rewrite Qabs_neg by (apply Qlt_le_weak; exact Hneg). lra. }
  unfold adjusted_spending_by_category.
  destruct (Py.gt (net_loan_spending data) 0) eqn:E.
  - apply setitem_pos; [apply PyFacts.gt_spec; exact E | exact Habs].
  - apply drop_Forall. exact Habs.
Qed.

Lemma adjusted_income_pos data :
  Forall prepared data ->
  Forall (fun kv => 0 < snd kv) (adjusted_income_by_category data).
Proof.
  intros Hp. unfold adjusted_income_by_category. apply drop_Forall.
  apply RowFacts.income_sums_pos. exact Hp.
Qed.

Lemma to_dict_Forall (P : Q -> Prop) (s : Series) :
  Forall (fun kv => P (snd kv)) s -> map_Forall (fun _ v => P v) (to_dict s).
Proof.
  intros Hs k v Hl. apply SeriesFacts.to_dict_lookup_In in Hl.
  rewrite List.Forall_forall in Hs. exact (Hs (k, v) Hl).
Qed.

(** A dict of positive values sums to [0] only when it is empty. *)
Lemma dict_sum_zero_empty (d : gmap string Q) :
  map_Forall (fun _ v => 0 < v) d -> Py.dict_sum d == 0 -> d = ∅.
Proof.
  intros Hpos Hz. apply map_to_list_empty_iff.
  destruct (map_to_list d) as [|[k v] l] eqn:E; [reflexivity|]. exfalso.
  unfold Py.dict_sum in Hz. rewrite E in Hz.
  assert (Hsum : 0 < Py.sum (map snd ((k, v) :: l))).
  { apply SumFacts.sum_pos; [discriminate|].
    apply List.Forall_forall. intros x Hx. apply in_map_iff in Hx.
    destruct Hx as [[k1 v1] [<- Hin]]. cbn [snd].
    apply (Hpos k1 v1). apply elem_of_map_to_list. rewrite E.
    apply list_elem_of_In. exact Hin. }
  rewrite Hz in Hsum. exact (Qlt_irrefl 0 Hsum).
Qed.

End ValueFacts.

(** ** The engine on a column of whole numbers *)

Module Int64Facts.

Lemma wrap_small z : (- 2 ^ 63 <= z < 2 ^ 63)%Z -> Int64.wrap z = z.
Proof.
  intros Hz. unfold Int64.wrap. rewrite Z.mod_small by lia. lia.
Qed.

Lemma exact_sum_le l : (Z.abs (Int64.exact_sum l) <= Int64.magnitude_sum l)%Z.
Proof.
  induction l as [|x l IH];
    cbn [Int64.exact_sum Int64.magnitude_sum foldr]; [lia|].
  fold (Int64.exact_sum l). fold (Int64.magnitude_sum l). lia.
Qed.

Lemma magnitude_sum_nonneg l : (0 <= Int64.magnitude_sum l)%Z.
Proof.
  induction l as [|x l IH]; cbn [Int64.magnitude_sum foldr]; [lia|].
  fold (Int64.magnitude_sum l). lia.
Qed.

(** A sum whose magnitudes stay in range does not wrap. *)
Lemma sum_exact l :
  (Int64.magnitude_sum l < 2 ^ 63)%Z -> Int64.sum l = Int64.exact_sum l.
Proof.
  induction l as [|x l IH]; [reflexivity|].
  cbn [Int64.sum Int64.exact_sum Int64.magnitude_sum foldr].
  fold (Int64.sum l). fold (Int64.exact_sum l). fold (Int64.magnitude_sum l).
  intros Hm.
  pose proof (magnitude_sum_nonneg l) as H0.
  pose proof (exact_sum_le l) as Hle.
  rewrite IH by lia. unfold Int64.add. apply wrap_small. lia.
Qed.

Lemma abs_exact z : (Z.abs z < 2 ^ 63)%Z -> Int64.abs z = Z.abs z.
Proof. intros Hz. unfold Int64.abs. apply wrap_small. lia. Qed.

Lemma max64_0_nonneg z : (0 <= Int64.max 0 z)%Z.
Proof.
  unfold Int64.max. destruct (0 <? z)%Z eqn:E; [apply Z.ltb_lt in E|]; lia.
Qed.

Lemma magnitude_sum_filter {A} (p : A -> bool) (f : A -> Z) l :
  (Int64.magnitude_sum (map f (List.filter p l))
   <= Int64.magnitude_sum (map f l))%Z.
Proof.
  induction l as [|a l IH]; [reflexivity|].
  cbn [List.filter map]. destruct (p a); cbn [map Int64.magnitude_sum foldr];
    fold (Int64.magnitude_sum (map f (List.filter p l)));
    fold (Int64.magnitude_sum (map f l)); lia.
Qed.

Lemma inject_exact_sum l :
  inject_Z (Int64.exact_sum l) == Py.sum (map inject_Z l).
Proof.
  induction l as [|x l IH]; [reflexivity|].
  cbn [Int64.exact_sum foldr map]. fold (Int64.exact_sum l).
  rewrite inject_Z_plus, IH. reflexivity.
Qed.

Lemma inject_abs z : inject_Z (Z.abs z) = Qabs (inject_Z z).
Proof. reflexivity. Qed.

Lemma inject_magnitude_sum l :
  inject_Z (Int64.magnitude_sum l)
  == Py.sum (map (fun z => Qabs (inject_Z z)) l).
Proof.
  induction l as [|x l IH]; [reflexivity|].
  cbn [Int64.magnitude_sum foldr map]. fold (Int64.magnitude_sum l).
  rewrite inject_Z_plus, IH. reflexivity.
Qed.

Lemma whole_filter p rows :
  Int64.whole_rows rows -> Int64.whole_rows (List.filter p rows).
Proof.
  unfold Int64.whole_rows. rewrite !List.Forall_forall. intros H r Hr.
  apply H. apply filter_In in Hr. tauto.
Qed.

Lemma inject_cells rows :
  Int64.whole_rows rows ->
  inject_Z (Int64.exact_sum (Int64.cells rows)) == Py.sum (map amount rows).
Proof.
  intros Hw. rewrite inject_exact_sum. unfold Int64.cells. rewrite map_map.
  apply SumFacts.sum_map_Qeq_in. intros r Hr.
  unfold Int64.whole_rows in Hw. rewrite List.Forall_forall in Hw.
  symmetry. exact (Hw r Hr).
Qed.

Lemma inject_cells_magnitude rows :
  Int64.whole_rows rows ->
  inject_Z (Int64.magnitude_sum (Int64.cells rows))
  == Py.sum (map (fun r => Qabs (amount r)) rows).
Proof.
  intros Hw. rewrite inject_magnitude_sum. unfold Int64.cells. rewrite map_map.
  apply SumFacts.sum_map_Qeq_in. intros r Hr.
  unfold Int64.whole_rows in Hw. rewrite List.Forall_forall in Hw.
  apply Qabs_wd. symmetry. exact (Hw r Hr).
Qed.

(** The sum of the cells of a part of a frame in range is exact. *)
Lemma sum_cells_part p rows :
  Int64.whole_rows rows -> (Int64.frame_magnitude rows < 2 ^ 63)%Z ->
  let part := List.filter p rows in
  Int64.sum (Int64.cells part) = Int64.exact_sum (Int64.cells part) /\
  (Z.abs (Int64.exact_sum (Int64.cells part))
   <= Int64.frame_magnitude rows)%Z /\
  inject_Z (Int64.exact_sum (Int64.cells part)) == Py.sum (map amount part).
Proof.
  intros Hw Hm part. unfold Int64.frame_magnitude in *.
  pose proof (magnitude_sum_filter p (fun r => Int64.cell (amount r)) rows)
    as Hle.
  fold (Int64.cells rows) in Hle. fold part in Hle.
  fold (Int64.cells part) in Hle.
  pose proof (exact_sum_le (Int64.cells part)) as Habs.
  split; [apply sum_exact; lia|]. split; [lia|].
  apply inject_cells. apply whole_filter. exact Hw.
Qed.

Lemma Forall2_map_same {A B C} (R : B -> C -> Prop) (f : A -> B)
  (g : A -> C) l :
  (forall a, In a l -> R (f a) (g a)) -> Forall2 R (map f l) (map g l).
Proof.
  induction l as [|a l IH]; intros H; cbn [map]; constructor.
  - apply H. left. reflexivity.
  - apply IH. intros a' Ha'. apply H. right. exact Ha'.
Qed.

Lemma groupby_sum_sim rows :
  Int64.whole_rows rows -> (Int64.frame_magnitude rows < 2 ^ 63)%Z ->
  Forall2 (Int64.sim (Int64.frame_magnitude rows))
    (Int64.groupby_sum category (fun r => Int64.cell (amount r)) rows)
    (Pandas.groupby_sum category amount rows).
Proof.
  intros Hw Hm. unfold Int64.frame_magnitude in *.
  unfold Int64.groupby_sum, Pandas.groupby_sum.
  apply Forall2_map_same. intros [k g] Hin. cbn [fst snd].
  apply GroupByFacts.groupby_In in Hin. subst g.
  destruct (sum_cells_part (fun r => Pandas.has_key k (category r)) rows Hw Hm)
    as (Hs & Hb & Hq).
  unfold Int64.cells in *. split; [reflexivity|]. cbn [snd].
  rewrite Hs. split; [exact Hq | exact Hb].
Qed.

Lemma series_abs_sim B s s' :
  (B < 2 ^ 63)%Z ->
  Forall2 (Int64.sim B) s s' ->
  Forall2 (Int64.sim B) (Int64.series_abs s) (Pandas.series_abs s').
Proof.
  intros HB. induction 1 as [|a b s s' (Hk & Hv & Hb) _ IH];
    cbn [Int64.series_abs Pandas.series_abs map]; constructor; [|exact IH].
  split; [exact Hk|]. cbn [snd].
  rewrite abs_exact by lia. split; [|lia].
  rewrite inject_abs, Hv. reflexivity.
Qed.

Lemma sim_labels B s s' :
  Forall2 (Int64.sim B) s s' -> map fst s = map fst s'.
Proof.
  induction 1 as [|a b s s' (Hk & _) _ IH]; [reflexivity|].
  cbn [map]. rewrite Hk, IH. reflexivity.
Qed.

Lemma existsb_labels {V} k (s : list (string * V)) :
  existsb (fun kv => String.eqb (fst kv) k) s
  = existsb (fun l => String.eqb l k) (map fst s).
Proof.
  induction s as [|a s IH]; [reflexivity|].
  cbn [existsb map]. rewrite IH. reflexivity.
Qed.

Lemma series_setitem_sim B k v v' s s' :
  inject_Z v == v' -> (Z.abs v <= B)%Z ->
  Forall2 (Int64.sim B) s s' ->
  Forall2 (Int64.sim B) (Int64.series_setitem k v s)
    (Pandas.series_setitem k v' s').
Proof.
  intros Hv Hb Hs. unfold Int64.series_setitem, Pandas.series_setitem.
  rewrite (existsb_labels k s), (existsb_labels k s'), (sim_labels B s s' Hs).
  destruct (existsb (fun l => String.eqb l k) (map fst s')).
  - induction Hs as [|a b s s' (Hk & Hab & Hbb) _ IH]; cbn [map];
      constructor; [|exact IH].
    rewrite Hk. destruct (String.eqb (fst b) k).
    + split; [reflexivity|]. split; [exact Hv | exact Hb].
    + split; [exact Hk|]. split; [exact Hab | exact Hbb].
  - apply Forall2_app; [exact Hs|]. constructor; [|constructor].
    split; [reflexivity|]. split; [exact Hv | exact Hb].
Qed.

Lemma series_drop_sim B k s s' :
  Forall2 (Int64.sim B) s s' ->
  Forall2 (Int64.sim B) (Int64.series_drop k s) (Pandas.series_drop k s').
Proof.
  unfold Int64.series_drop, Pandas.series_drop.
  induction 1 as [|a b s s' Hab _ IH]; cbn [List.filter]; [constructor|].
  destruct Hab as (Hk & Hv & Hb). rewrite Hk.
  destruct (negb (String.eqb (fst b) k)); [|exact IH].
  constructor; [|exact IH]. split; [exact Hk|]. split; [exact Hv | exact Hb].
Qed.

(** The sum of an [int64] series that stands for a series of nonnegative
    numbers whose sum is in range is that sum. *)
Lemma series_sum_sim B s s' :
  Forall2 (Int64.sim B) s s' ->
  Forall (fun b => 0 <= snd b) s' ->
  Pandas.series_sum s' < inject_Z (2 ^ 63) ->
  inject_Z (Int64.series_sum s) == Pandas.series_sum s'.
Proof.
  intros Hs Hpos Hlt.
  assert (Hmag : inject_Z (Int64.magnitude_sum (map snd s))
                 == Pandas.series_sum s'
                 /\ inject_Z (Int64.exact_sum (map snd s))
                    == Pandas.series_sum s').
  { clear Hlt. unfold Pandas.series_sum.
    induction Hs as [|a b s s' (Hk & Hv & Hb) _ IH]; [split; reflexivity|].
    inversion Hpos as [|? ? Hb0 Hpos']; subst.
    destruct (IH Hpos') as [IH1 IH2].
    cbn [map Int64.magnitude_sum Int64.exact_sum foldr Py.sum].
    fold (Int64.magnitude_sum (map snd s)). fold (Int64.exact_sum (map snd s)).
    fold (Py.sum (map snd s')).
    rewrite !inject_Z_plus, IH1, IH2, <- Hv.
    rewrite <- Hv in Hb0. rewrite <- (Zle_Qle 0) in Hb0.
    rewrite Z.abs_eq by exact Hb0. split; reflexivity. }
  destruct Hmag as [Hmag Hex].
  unfold Int64.series_sum. rewrite sum_exact; [exact Hex|].
  rewrite Zlt_Qlt, Hmag. exact Hlt.
Qed.

Lemma filter_filter {A} (p q : A -> bool) l :
  List.filter p (List.filter q l) = List.filter (fun a => p a && q a) l.
Proof.
  induction l as [|a l IH]; [reflexivity|].
  cbn [List.filter]. destruct (q a); cbn [List.filter];
    [destruct (p a); cbn [andb]; rewrite IH; reflexivity|].
  rewrite andb_false_r. exact IH.
Qed.

(** An [int64] series that stands for a series of positive numbers holds
    positive numbers. *)
Lemma sim_pos B s s' :
  Forall2 (Int64.sim B) s s' ->
  Forall (fun b => 0 < snd b) s' ->
  Forall (fun a => (0 < snd a)%Z) s.
Proof.
  induction 1 as [|a b s s' (Hk & Hv & Hb) _ IH]; intros Hpos; constructor.
  - inversion Hpos; subst. rewrite Zlt_Qlt, Hv. assumption.
  - apply IH. inversion Hpos; assumption.
Qed.

Lemma gt_inject z : Py.gt (inject_Z z) 0 = (0 <? z)%Z.
Proof.
  apply eq_true_iff_eq. rewrite PyFacts.gt_spec, Z.ltb_lt.
  rewrite (Zlt_Qlt 0 z). reflexivity.
Qed.

Lemma gt_Qeq a b : a == b -> Py.gt a 0 = Py.gt b 0.
Proof.
  intros Hab. apply eq_true_iff_eq. rewrite !PyFacts.gt_spec, Hab. tauto.
Qed.

Section Frame.
Variable data : list Row.
Hypothesis Hp : Forall prepared data.
Hypothesis Hw : Int64.whole_rows data.
Hypothesis Hm : (Int64.frame_magnitude data < 2 ^ 63)%Z.

(** The magnitude of the summed expenses of a category is exact. *)
Lemma category_sim c :
  let z :=
    Int64.abs (Int64.sum (Int64.cells (with_category c (expenses data)))) in
  inject_Z z == Qabs (Py.sum (map amount (with_category c (expenses data))))
  /\ (0 <= z <= Int64.frame_magnitude data)%Z.
Proof.
  intros z. unfold z, with_category, expenses.
  rewrite filter_filter.
  destruct (sum_cells_part
              (fun r => Pandas.eq_cell (category r) c && is_expense r)%bool
              data Hw Hm) as (Hs & Hb & Hq).
  cbv zeta in Hs, Hb, Hq.
  rewrite Hs, abs_exact by lia.
  split; [|lia]. rewrite inject_abs, Hq. reflexivity.
Qed.

Lemma repaid_sim :
  let z :=
    Int64.sum
      (Int64.cells (with_category "Lending, renting" (income_data data))) in
  inject_Z z
  == Py.sum (map amount (with_category "Lending, renting" (income_data data)))
  /\ (0 <= z <= Int64.frame_magnitude data)%Z.
Proof.
  intros z. unfold z.
  assert (Hpos : Forall (fun x => 0 <= x)
                   (map amount
                      (with_category "Lending, renting" (income_data data)))).
  { apply List.Forall_forall. intros x Hx. apply in_map_iff in Hx.
    destruct Hx as [r [<- Hr]]. unfold with_category in Hr.
    apply filter_In in Hr. destruct Hr as [Hr _].
    pose proof (RowFacts.income_data_pos data Hp) as Hall.
    rewrite List.Forall_forall in Hall. apply Qlt_le_weak, Hall, Hr. }
  apply PyFacts.sum_nonneg in Hpos.
  unfold with_category, income_data in *.
  rewrite filter_filter in *.
  destruct (sum_cells_part
              (fun r => Pandas.eq_cell (category r) "Lending, renting"
                        && is_income r)%bool
              data Hw Hm) as (Hs & Hb & Hq).
  cbv zeta in Hs, Hb, Hq.
  rewrite Hs. split; [exact Hq|].
  rewrite <- Hq in Hpos. rewrite <- (Zle_Qle 0) in Hpos. lia.
Qed.

Lemma net_sim :
  inject_Z (Int64.net_loan_spending data) == net_loan_spending data /\
  (Z.abs (Int64.net_loan_spending data) <= Int64.frame_magnitude data)%Z.
Proof.
  destruct (category_sim "Loan, interests") as [HL HLb].
  destruct repaid_sim as [HR HRb]. cbv zeta in HL, HLb, HR, HRb.
  unfold Int64.net_loan_spending, net_loan_spending.
  fold (Int64.cells (with_category "Loan, interests" (expenses data))).
  fold (Int64.cells (with_category "Lending, renting" (income_data data))).
  unfold Int64.sub. rewrite wrap_small by lia.
  split; [|lia].
  unfold Zminus. rewrite inject_Z_plus, inject_Z_opp, HL, HR. reflexivity.
Qed.

Lemma adjusted_sim :
  Forall2 (Int64.sim (Int64.frame_magnitude data))
    (Int64.adjusted_spending_by_category data)
    (adjusted_spending_by_category data).
Proof.
  destruct net_sim as [Hn Hnb].
  unfold Int64.adjusted_spending_by_category,
    adjusted_spending_by_category.
  rewrite <- (gt_Qeq _ _ Hn), gt_inject.
  assert (Hraw : Forall2 (Int64.sim (Int64.frame_magnitude data))
            (Int64.series_abs
               (Int64.groupby_sum category (fun r => Int64.cell (amount r))
                  (expenses data)))
            (Pandas.series_abs
               (Pandas.groupby_sum category amount (expenses data)))).
  { apply series_abs_sim; [exact Hm|].
    pose proof (magnitude_sum_filter is_expense
                  (fun r => Int64.cell (amount r)) data) as Hle.
    change (Int64.frame_magnitude (expenses data)
            <= Int64.frame_magnitude data)%Z in Hle.
    eapply Forall2_impl;
      [apply groupby_sum_sim; [apply whole_filter; exact Hw | lia]|].
    intros a b (H1 & H2 & H3). split; [exact H1|]. split; [exact H2|]. lia. }
  destruct (0 <? Int64.net_loan_spending data)%Z.
  - apply series_setitem_sim; assumption.
  - apply series_drop_sim. exact Hraw.
Qed.

Lemma adjusted_income_sim :
  Forall2 (Int64.sim (Int64.frame_magnitude data))
    (Int64.adjusted_income_by_category data)
    (adjusted_income_by_category data).
Proof.
  unfold Int64.adjusted_income_by_category, adjusted_income_by_category.
  apply series_drop_sim.
  pose proof (magnitude_sum_filter is_income
                (fun r => Int64.cell (amount r)) data) as Hle.
  change (Int64.frame_magnitude (income_data data)
          <= Int64.frame_magnitude data)%Z in Hle.
  eapply Forall2_impl;
    [apply groupby_sum_sim; [apply whole_filter; exact Hw | lia]|].
  intros a b (H1 & H2 & H3). split; [exact H1|]. split; [exact H2|]. lia.
Qed.

(** The values of the two adjusted maps are positive. *)
Lemma category_values_pos :
  let m := Int64._calculate_metrics data in
  map_Forall (fun _ v => (0 < v)%Z) (Int64.spending_by_category m) /\
  map_Forall (fun _ v => (0 < v)%Z) (Int64.income_by_category m).
Proof.
  intros m. split.
  - intros k v Hl.
    change (Int64.to_dict (Int64.adjusted_spending_by_category data) !! k
            = Some v) in Hl.
    unfold Int64.to_dict in Hl. apply elem_of_list_to_map_2 in Hl.
    apply list_elem_of_In in Hl.
    pose proof (sim_pos _ _ _ adjusted_sim
                  (ValueFacts.adjusted_spending_pos data Hp)) as Hall.
    rewrite List.Forall_forall in Hall. exact (Hall (k, v) Hl).
  - intros k v Hl.
    change (Int64.to_dict (Int64.adjusted_income_by_category data) !! k
            = Some v) in Hl.
    unfold Int64.to_dict in Hl. apply elem_of_list_to_map_2 in Hl.
    apply list_elem_of_In in Hl.
    pose proof (sim_pos _ _ _ adjusted_income_sim
                  (ValueFacts.adjusted_income_pos data Hp)) as Hall.
    rewrite List.Forall_forall in Hall. exact (Hall (k, v) Hl).
Qed.

(** The adjusted spending of exact arithmetic is in range. *)
Lemma total_spending_range self :
  total_spending (_calculate_metrics self data) < inject_Z (2 ^ 63).
Proof.
  rewrite (MetricFacts.total_spending_adjustment self data Hp).
  rewrite (MetricFacts.total_spending_raw_rows self data Hp).
  rewrite EngineFacts.outstanding_lending_eq.
  rewrite (EngineFacts.net_loan_spending_eq self data).
  assert (HR : 0 <= repaid_lending (_calculate_metrics self data)).
  { rewrite MetricFacts.repaid_lending_rows.
    apply PyFacts.sum_nonneg. apply List.Forall_forall. intros x Hx.
    apply in_map_iff in Hx. destruct Hx as [r [<- Hr]].
    unfold repay_weight.
    destruct (is_income r && Pandas.eq_cell (category r) Config.lending_category)
      eqn:E; [|apply Qle_refl].
    apply andb_true_iff in E. destruct E as [E _].
    rewrite List.Forall_forall in Hp.
    apply Qlt_le_weak. exact (RowFacts.income_pos r (Hp r Hr) E). }
  assert (Hmag : Py.sum (map expense_magnitude data)
                 <= Py.sum (map (fun r => Qabs (amount r)) data)).
  { apply SumFacts.sum_map_le. intros r _. unfold expense_magnitude.
    destruct (is_expense r && Pandas.notna (category r));
      [apply Qle_refl | apply Qabs_nonneg]. }
  rewrite <- (inject_cells_magnitude data Hw) in Hmag.
  rewrite Zlt_Qlt in Hm.
  set (L := total_lending (_calculate_metrics self data)) in *.
  set (R := repaid_lending (_calculate_metrics self data)) in *.
  assert (Hout : Py.max 0 (L - R) <= Qabs L).
  { pose proof (Qle_Qabs L) as HLa. pose proof (Qabs_nonneg L) as HL0.
    unfold Py.max. destruct (Py.gt (L - R) 0); lra. }
  assert (HLabs : Qabs L == L).
  { apply Qabs_pos. unfold L. apply Qabs_nonneg. }
  unfold Int64.frame_magnitude in Hm.
  set (top := inject_Z (2 ^ 63)) in *.
  set (mag := inject_Z (Int64.magnitude_sum (Int64.cells data))) in *.
  lra.
Qed.

(** The spending-side figures of the record of a frame of whole amounts
    in range are magnitudes. *)
Lemma magnitudes64_nonneg :
  let m := Int64._calculate_metrics data in
  map_Forall (fun _ v => (0 <= v)%Z) (Int64.spending_by_category m) /\
  (0 <= Int64.total_spending m)%Z /\
  (0 <= Int64.charity_spending m)%Z /\
  (0 <= Int64.total_lending m)%Z /\
  (0 <= Int64.repaid_lending m)%Z /\
  (0 <= Int64.outstanding_lending m)%Z /\
  (0 <= Int64.excess_repayment m)%Z.
Proof.
  intros m.
  pose proof adjusted_sim as Hsim.
  pose proof (EngineFacts.adjusted_spending_nonneg data) as Hpos.
  assert (Hvals : Forall (fun a => (0 <= snd a)%Z)
                    (Int64.adjusted_spending_by_category data)).
  { clear -Hsim Hpos.
    induction Hsim as [|a b s s' (Hk & Hv & Hb) _ IH]; constructor.
    - inversion Hpos; subst. rewrite Zle_Qle, Hv. assumption.
    - apply IH. inversion Hpos; assumption. }
  split; [|split; [|split; [|split; [|split; [|split]]]]].
  - intros k v Hl.
    change (Int64.to_dict (Int64.adjusted_spending_by_category data) !! k
            = Some v) in Hl.
    unfold Int64.to_dict in Hl. apply elem_of_list_to_map_2 in Hl.
    apply list_elem_of_In in Hl.
    rewrite List.Forall_forall in Hvals. exact (Hvals (k, v) Hl).
  - change (0 <= Int64.series_sum (Int64.adjusted_spending_by_category data))%Z.
    rewrite Zle_Qle.
    rewrite (series_sum_sim _ _ _ Hsim Hpos).
    + apply SeriesFacts.sum_values_nonneg. exact Hpos.
    + pose proof (total_spending_range (__init__ [])) as Hr.
      rewrite EngineFacts.total_spending_eq in Hr. exact Hr.
  - exact (proj1 (proj2 (category_sim "Charity"))).
  - exact (proj1 (proj2 (category_sim "Loan, interests"))).
  - exact (proj1 (proj2 repaid_sim)).
  - apply max64_0_nonneg.
  - apply max64_0_nonneg.
Qed.

End Frame.

(** The frame of a table of whole amounts in range. *)
Lemma prepared_whole df :
  Forall (fun t => Int64.whole (tx_amount t)) df ->
  Int64.whole_rows (_prepare_data df).
Proof.
  unfold Int64.whole_rows, _prepare_data. rewrite !List.Forall_forall.
  intros H r Hr. apply in_map_iff in Hr. destruct Hr as [t [<- Ht]].
  exact (H t Ht).
Qed.

Lemma prepared_range df :
  Forall (fun t => Int64.whole (tx_amount t)) df ->
  Py.sum (map (fun t => Qabs (tx_amount t)) df) < inject_Z (2 ^ 63) ->
  (Int64.magnitude_sum (Int64.cells (_prepare_data df)) < 2 ^ 63)%Z.
Proof.
  intros Hw Hlt. rewrite Zlt_Qlt.
  rewrite (inject_cells_magnitude _ (prepared_whole df Hw)).
  unfold _prepare_data. rewrite map_map. exact Hlt.
Qed.

End Int64Facts.

(** * Part III: the claims of the specification *)




(** C3. For every transaction set, the repayment category has no entry in
    [income_by_category], whatever the sign of the net loan spending. *)
Theorem C3_repayment_excluded (self : FinancialAnalyzer) (df : list Transaction) :
  income_by_category (_calculate_metrics self (_prepare_data df))
    !! Config.lending_category = None.
Proof.
  rewrite EngineFacts.income_by_category_eq.
  apply SeriesFacts.drop_lookup_eq.
Qed.



(** C6. For the empty transaction set the engine returns a record whose
    aggregates are all [0] and whose category maps are empty, but whose
    [avg_transaction] is [NaN], the mean of an empty column, and not [0]. *)
Theorem C6_empty_avg_is_NaN (self : FinancialAnalyzer) :
  let m := _calculate_metrics self (_prepare_data []) in
  avg_transaction m = Py.NaN /\
  avg_transaction m <> Py.Fin 0 /\
  spending_by_category m = ∅ /\
  income_by_category m = ∅ /\
  total_spending m = 0 /\
  total_income m = 0 /\
  charity_spending m = 0 /\
  total_lending m = 0 /\
  repaid_lending m = 0 /\
  outstanding_lending m = 0 /\
  excess_repayment m = 0 /\
  charity_percentage m = Py.Fin 0 /\
  transaction_count m = 0%nat.
Proof.
  cbv zeta. repeat split. discriminate.
Qed.

(** C7. For every transaction set, [charity_percentage] is a finite number:
    it is [0] when the adjusted total spending is [0], and
    [charity_spending / total_spending * 100] when the adjusted total
    spending is positive. *)
Theorem C7_charity_percentage (self : FinancialAnalyzer) (df : list Transaction) :
  let m := _calculate_metrics self (_prepare_data df) in
  (total_spending m == 0 -> charity_percentage m = Py.Fin 0) /\
  (0 < total_spending m ->
     exists q, charity_percentage m = Py.Fin q /\
               q == charity_spending m / total_spending m * 100) /\
  (exists q, charity_percentage m = Py.Fin q).
Proof.
  intros m.
  assert (Hdef : charity_percentage m =
                 if Py.gt (total_spending m) 0
                 then Py.mul (Py.div (charity_spending m) (total_spending m)) 100
                 else Py.Fin 0) by reflexivity.
  assert (Hpos : 0 < total_spending m ->
                 charity_percentage m
                 = Py.Fin (charity_spending m / total_spending m * 100)).
  { intros Hlt. rewrite Hdef, (proj2 (PyFacts.gt_spec _ _) Hlt).
    unfold Py.div. destruct (Qeq_bool (total_spending m) 0) eqn:E.
    - apply Qeq_bool_eq in E. rewrite E in Hlt.
      exfalso. exact (Qlt_irrefl 0 Hlt).
    - reflexivity. }
  split; [|split].
  - intros Hz. rewrite Hdef.
    rewrite (proj2 (PyFacts.gt_false (total_spending m) 0)); [reflexivity|].
    rewrite Hz. apply Qle_refl.
  - intros Hlt. eexists. split; [apply Hpos; exact Hlt | reflexivity].
  - destruct (Py.gt (total_spending m) 0) eqn:E.
    + apply PyFacts.gt_spec in E. eexists. apply Hpos. exact E.
    + exists 0. exact Hdef.
Qed.

Lemma C7_charity_percentage_witness :
  let mB := _calculate_metrics (__init__ scenario_B) (_prepare_data scenario_B) in
  let mC := _calculate_metrics (__init__ scenario_C) (_prepare_data scenario_C) in
  (total_spending mB == 0 /\ charity_percentage mB = Py.Fin 0) /\
  (0 < total_spending mC /\
   exists q, charity_percentage mC = Py.Fin q /\
             q == charity_spending mC / total_spending mC * 100).
Proof.
  intros mB mC.
  assert (HB : total_spending mB == 0) by (vm_compute; reflexivity).
  assert (HC : 0 < total_spending mC) by (vm_compute; reflexivity).
  split; split; [exact HB | | exact HC | ].
  - exact (proj1 (C7_charity_percentage (__init__ scenario_B) scenario_B) HB).
  - exact (proj1 (proj2 (C7_charity_percentage (__init__ scenario_C) scenario_C))
                 HC).
Defined.



(** C9. The method bound to [get_lending_summary] reads the key
    ['lending_details'], which no metrics record holds: for every loaded
    transaction set the call raises [KeyError] and returns nothing. *)
Theorem C9_lending_summary_raises (df : list Transaction) :
  get_lending_summary (__init__ df) = Py.KeyError "lending_details".
Proof.
  unfold get_lending_summary.
  rewrite DictFacts.getitem_lending_details. reflexivity.
Qed.

(** C10 (counterexample).  Two expenses of [2^62] in one category, in a
    table of whole amounts: their sum is [-2^63], whose magnitude is not an
    [int64]; the record holds [-2^63] as the spending of the category and
    as the total spending. *)
Lemma C10_int64_overflow_counterexample :
  let m := Int64._calculate_metrics (_prepare_data overflow_ledger) in
  Int64.spending_by_category m !! "Food" = Some (- 2 ^ 63)%Z /\
  Int64.total_spending m = (- 2 ^ 63)%Z /\
  ~ (map_Forall (fun _ v => (0 <= v)%Z) (Int64.spending_by_category m) /\
     (0 <= Int64.total_spending m)%Z /\
     (0 <= Int64.charity_spending m)%Z /\
     (0 <= Int64.total_lending m)%Z /\
     (0 <= Int64.repaid_lending m)%Z /\
     (0 <= Int64.outstanding_lending m)%Z /\
     (0 <= Int64.excess_repayment m)%Z).
Proof.
  assert (H1 : Int64.spending_by_category
                 (Int64._calculate_metrics (_prepare_data overflow_ledger))
               !! "Food" = Some (- 2 ^ 63)%Z) by (vm_compute; reflexivity).
  assert (H2 : Int64.total_spending
                 (Int64._calculate_metrics (_prepare_data overflow_ledger))
               = (- 2 ^ 63)%Z) by (vm_compute; reflexivity).
  cbv zeta. split; [exact H1|]. split; [exact H2|].
  intros (_ & Hts & _). rewrite H2 in Hts. lia.
Qed.

(** C10 (amended).  In every record, every value of [spending_by_category]
    is nonnegative, and so are [total_spending], [charity_spending],
    [total_lending], [repaid_lending], [outstanding_lending] and
    [excess_repayment]: on a [float64] amount column always, and on an
    [int64] amount column when the magnitudes of the amounts of the table
    sum to less than [2^63]. *)
Theorem C10_magnitudes_nonneg_in_range
  (self : FinancialAnalyzer) (df : list Transaction) :
  (let m := _calculate_metrics self (_prepare_data df) in
   map_Forall (fun _ v => 0 <= v) (spending_by_category m) /\
   0 <= total_spending m /\
   0 <= charity_spending m /\
   0 <= total_lending m /\
   0 <= repaid_lending m /\
   0 <= outstanding_lending m /\
   0 <= excess_repayment m) /\
  (Forall (fun t => Int64.whole (tx_amount t)) df ->
   Py.sum (map (fun t => Qabs (tx_amount t)) df) < inject_Z (2 ^ 63) ->
   let m := Int64._calculate_metrics (_prepare_data df) in
   map_Forall (fun _ v => (0 <= v)%Z) (Int64.spending_by_category m) /\
   (0 <= Int64.total_spending m)%Z /\
   (0 <= Int64.charity_spending m)%Z /\
   (0 <= Int64.total_lending m)%Z /\
   (0 <= Int64.repaid_lending m)%Z /\
   (0 <= Int64.outstanding_lending m)%Z /\
   (0 <= Int64.excess_repayment m)%Z).
Proof.
  split.
  - exact (EngineFacts.magnitudes_nonneg self df).
  - intros Hw Hlt.
    exact (Int64Facts.magnitudes64_nonneg (_prepare_data df)
             (RowFacts.prepare_prepared df)
             (Int64Facts.prepared_whole df Hw)
             (Int64Facts.prepared_range df Hw Hlt)).
Qed.

Lemma C10_magnitudes_nonneg_in_range_witness :
  let m := Int64._calculate_metrics (_prepare_data scenario_A) in
  Forall (fun t => Int64.whole (tx_amount t)) scenario_A /\
  Py.sum (map (fun t => Qabs (tx_amount t)) scenario_A) < inject_Z (2 ^ 63) /\
  (0 <= Int64.total_spending m)%Z /\
  (0 <= Int64.outstanding_lending m)%Z.
Proof.
  intros m.
  assert (Hw : Forall (fun t => Int64.whole (tx_amount t)) scenario_A)
    by (repeat constructor).
  assert (Hlt : Py.sum (map (fun t => Qabs (tx_amount t)) scenario_A)
                < inject_Z (2 ^ 63)) by reflexivity.
  pose proof (proj2 (C10_magnitudes_nonneg_in_range
                       (__init__ scenario_A) scenario_A) Hw Hlt) as H.
  split; [exact Hw|]. split; [exact Hlt|]. split; apply H.
Defined.

(** * Part IV: further properties of the analyzer *)



(** X3. On a [float64] amount column every value of the two category
    maps of a record is strictly positive, so a record with no spending
    has an empty spending map and a record with no income an empty income
    map.  On an [int64] amount column the values of the two maps are
    strictly positive when the magnitudes of the amounts of the table sum
    to less than [2^63]. *)
Theorem X3_category_values_positive
  (self : FinancialAnalyzer) (df : list Transaction) :
  (let m := _calculate_metrics self (_prepare_data df) in
   map_Forall (fun _ v => 0 < v) (spending_by_category m) /\
   map_Forall (fun _ v => 0 < v) (income_by_category m) /\
   (total_spending m == 0 <-> spending_by_category m = ∅) /\
   (total_income m == 0 <-> income_by_category m = ∅)) /\
  (Forall (fun t => Int64.whole (tx_amount t)) df ->
   Py.sum (map (fun t => Qabs (tx_amount t)) df) < inject_Z (2 ^ 63) ->
   let m := Int64._calculate_metrics (_prepare_data df) in
   map_Forall (fun _ v => (0 < v)%Z) (Int64.spending_by_category m) /\
   map_Forall (fun _ v => (0 < v)%Z) (Int64.income_by_category m)).
Proof.
  split; [|intros Hw Hlt;
           exact (Int64Facts.category_values_pos (_prepare_data df)
                    (RowFacts.prepare_prepared df)
                    (Int64Facts.prepared_whole df Hw)
                    (Int64Facts.prepared_range df Hw Hlt))].
  intros m.
  pose proof (RowFacts.prepare_prepared df) as Hp.
  assert (Hs : map_Forall (fun _ v => 0 < v) (spending_by_category m)).
  { apply (ValueFacts.to_dict_Forall (fun v => 0 < v)).
    apply ValueFacts.adjusted_spending_pos. exact Hp. }
  assert (Hi : map_Forall (fun _ v => 0 < v) (income_by_category m)).
  { apply (ValueFacts.to_dict_Forall (fun v => 0 < v)).
    apply ValueFacts.adjusted_income_pos. exact Hp. }
  split; [exact Hs|]. split; [exact Hi|]. split.
  - split.
    + intros Hz. apply ValueFacts.dict_sum_zero_empty; [exact Hs|].
      rewrite <- Hz. symmetry. apply EngineFacts.total_spending_dict_sum.
    + intros He. unfold m. rewrite EngineFacts.total_spending_dict_sum.
      fold m. rewrite He, PyFacts.dict_sum_empty. reflexivity.
  - split.
    + intros Hz. apply ValueFacts.dict_sum_zero_empty; [exact Hi|].
      rewrite <- Hz. symmetry. apply EngineFacts.total_income_dict_sum.
    + intros He. unfold m. rewrite EngineFacts.total_income_dict_sum.
      fold m. rewrite He, PyFacts.dict_sum_empty. reflexivity.
Qed.

Lemma X3_category_values_positive_witness :
  let m := Int64._calculate_metrics (_prepare_data scenario_C) in
  Forall (fun t => Int64.whole (tx_amount t)) scenario_C /\
  Py.sum (map (fun t => Qabs (tx_amount t)) scenario_C) < inject_Z (2 ^ 63) /\
  map_Forall (fun _ v => (0 < v)%Z) (Int64.spending_by_category m) /\
  map_Forall (fun _ v => (0 < v)%Z) (Int64.income_by_category m).
Proof.
  intros m.
  assert (Hw : Forall (fun t => Int64.whole (tx_amount t)) scenario_C)
    by (repeat constructor).
  assert (Hlt : Py.sum (map (fun t => Qabs (tx_amount t)) scenario_C)
                < inject_Z (2 ^ 63)) by reflexivity.
  split; [exact Hw|]. split; [exact Hlt|].
  exact (proj2 (X3_category_values_positive (__init__ scenario_C) scenario_C)
               Hw Hlt).
Defined.

(** ** The buckets of the simplified split, read from the rows *)

Module BucketFacts.
Import Pandas.













End BucketFacts.

(** ** The share of one category in a map *)

Module ShareFacts.
Import Pandas.



End ShareFacts.



(** ** Rows that are neither expense nor income *)

Module ZeroFacts.

(** A record depends on the frame through its expenses and its incomes
    only, but for the count and the average of the transactions. *)
Lemma metrics_congr self d d' :
  List.filter is_expense d = List.filter is_expense d' ->
  List.filter is_income d = List.filter is_income d' ->
  let m := _calculate_metrics self d in
  let m' := _calculate_metrics self d' in
  spending_by_category m = spending_by_category m' /\
  income_by_category m = income_by_category m' /\
  total_spending m = total_spending m' /\
  total_income m = total_income m' /\
  net_balance m = net_balance m' /\
  charity_spending m = charity_spending m' /\
  spending_excluding_charity m = spending_excluding_charity m' /\
  simplified_spending m = simplified_spending m' /\
  total_lending m = total_lending m' /\
  repaid_lending m = repaid_lending m' /\
  outstanding_lending m = outstanding_lending m' /\
  excess_repayment m = excess_repayment m' /\
  charity_percentage m = charity_percentage m' /\
  raw_totals m = raw_totals m'.
Proof.
  intros H1 H2. unfold _calculate_metrics. cbv zeta.
  cbn [spending_by_category income_by_category total_spending total_income
       net_balance charity_spending spending_excluding_charity
       simplified_spending total_lending repaid_lending outstanding_lending
       excess_repayment charity_percentage raw_totals].
  rewrite H1, H2. repeat split.
Qed.

Lemma zero_flags t :
  tx_amount t == 0 ->
  Py.lt (tx_amount t) 0 = false /\ Py.gt (tx_amount t) 0 = false.
Proof.
  intros Hz. split.
  - destruct (Py.lt (tx_amount t) 0) eqn:E; [|reflexivity].
    apply PyFacts.lt_spec in E. rewrite Hz in E.
    exfalso. exact (Qlt_irrefl 0 E).
  - apply PyFacts.gt_false. rewrite Hz. apply Qle_refl.
Qed.

Lemma prepare_app df1 df2 :
  _prepare_data (df1 ++ df2) = _prepare_data df1 ++ _prepare_data df2.
Proof. unfold _prepare_data. apply map_app. Qed.

Lemma filter_zero_single t :
  tx_amount t == 0 ->
  List.filter is_expense (_prepare_data [t]) = [] /\
  List.filter is_income (_prepare_data [t]) = [].
Proof.
  intros Hz. destruct (zero_flags t Hz) as [He Hi].
  unfold _prepare_data. cbn [map List.filter is_expense is_income].
  rewrite He, Hi. split; reflexivity.
Qed.

Lemma filter_zero_row df1 t df2 :
  tx_amount t == 0 ->
  List.filter is_expense (_prepare_data (df1 ++ t :: df2))
    = List.filter is_expense (_prepare_data (df1 ++ df2)) /\
  List.filter is_income (_prepare_data (df1 ++ t :: df2))
    = List.filter is_income (_prepare_data (df1 ++ df2)).
Proof.
  intros Hz. destruct (filter_zero_single t Hz) as [He Hi].
  change (t :: df2) with ([t] ++ df2).
  rewrite !prepare_app, !List.filter_app, He, Hi. split; reflexivity.
Qed.

End ZeroFacts.

(** X6. A transaction whose amount is zero, wherever it stands in the
    table, raises the transaction count of the record by one and leaves
    every other field but the average as it was: the two category maps,
    the totals, the net balance, the charity spending and the spending
    excluding charity, the simplified split, the four lending fields, the
    charity percentage, the currency and the raw totals. *)
Theorem X6_zero_amount_ignored
  (self : FinancialAnalyzer) (df1 df2 : list Transaction) (t : Transaction) :
  tx_amount t == 0 ->
  let m := _calculate_metrics self (_prepare_data (df1 ++ df2)) in
  let m' := _calculate_metrics self (_prepare_data (df1 ++ t :: df2)) in
  spending_by_category m' = spending_by_category m /\
  income_by_category m' = income_by_category m /\
  total_spending m' = total_spending m /\
  total_income m' = total_income m /\
  net_balance m' = net_balance m /\
  charity_spending m' = charity_spending m /\
  spending_excluding_charity m' = spending_excluding_charity m /\
  simplified_spending m' = simplified_spending m /\
  total_lending m' = total_lending m /\
  repaid_lending m' = repaid_lending m /\
  outstanding_lending m' = outstanding_lending m /\
  excess_repayment m' = excess_repayment m /\
  charity_percentage m' = charity_percentage m /\
  currency m' = currency m /\
  raw_totals m' = raw_totals m /\
  transaction_count m' = S (transaction_count m).
Proof.
  intros Hz m m'.
  destruct (ZeroFacts.filter_zero_row df1 t df2 Hz) as [He Hi].
  pose proof (ZeroFacts.metrics_congr self _ _ He Hi) as H.
  cbv zeta in H. fold m m' in H.
  destruct H as (H1 & H2 & H3 & H4 & H5 & H6 & H7 & H8 & H9 & H10 & H11
                 & H12 & H13 & H14).
  assert (Hcount : transaction_count m' = S (transaction_count m)).
  { unfold m, m', _prepare_data. cbn [transaction_count _calculate_metrics].
    rewrite !length_map, !length_app. cbn [length]. lia. }
  repeat (split; [solve [assumption | reflexivity]|]).
  exact Hcount.
Qed.

Lemma X6_zero_amount_ignored_witness :
  let t := tx 2025 3 4 "Food" 0 in
  let m := _calculate_metrics (__init__ scenario_C)
             (_prepare_data ([] ++ scenario_C)) in
  let m' := _calculate_metrics (__init__ scenario_C)
              (_prepare_data ([] ++ t :: scenario_C)) in
  tx_amount t == 0 /\
  total_spending m' = total_spending m /\
  transaction_count m' = S (transaction_count m).
Proof.
  intros t m m'.
  assert (Hz : tx_amount t == 0) by reflexivity.
  pose proof (X6_zero_amount_ignored (__init__ scenario_C) [] scenario_C t Hz)
    as H.
  split; [exact Hz|]. split; [apply H | apply H].
Defined.

(** ** Period results *)

Module PeriodFacts.
Import Pandas.

Section Periods.
Context {K : Type} `{CmpLaws K}.

Lemma period_keys (period : Row -> option K) self :
  map fst (analyze_by_period period self)
  = map fst (groupby period (processed_data self)).
Proof. unfold analyze_by_period. rewrite map_map. reflexivity. Qed.

(** The keys of a period result are listed in strictly increasing order,
    and they are the periods of the rows. *)
Lemma period_keys_sorted (period : Row -> option K) self :
  StronglySorted key_lt (map fst (analyze_by_period period self)).
Proof. rewrite period_keys. apply GroupByFacts.groupby_sorted. Qed.

Lemma period_keys_rows (period : Row -> option K) self k :
  In k (map fst (analyze_by_period period self))
  <-> In (Some k) (map period (processed_data self)).
Proof. rewrite period_keys. apply GroupByFacts.groupby_keys. Qed.





Lemma list_sum_group_insert (k : K) (r : Row) gs :
  list_sum (map (fun kg => length (snd kg)) (group_insert k r gs))
  = S (list_sum (map (fun kg => length (snd kg)) gs)).
Proof.
  induction gs as [|[k1 g1] gs IH]; [reflexivity|].
  cbn [group_insert]. destruct (cmp k k1).
  - reflexivity.
  - reflexivity.
  - change (length g1
            + list_sum (map (fun kg => length (snd kg)) (group_insert k r gs))
            = S (length g1 + list_sum (map (fun kg => length (snd kg)) gs)))%nat.
    rewrite IH. lia.
Qed.

(** The transaction counts of the periods add up to the number of rows
    that have a period. *)
Lemma period_count_total (period : Row -> option K) self :
  period_count (analyze_by_period period self)
  = length (with_period period (processed_data self)).
Proof.
  unfold period_count, analyze_by_period, with_period.
  rewrite map_map. cbn [snd].
  change (fun x : K * list Row =>
            transaction_count (_calculate_metrics self (snd x)))
    with (fun x : K * list Row => length (snd x)).
  induction (processed_data self) as [|r rows IH]; [reflexivity|].
  cbn [groupby foldr List.filter]. fold (groupby period rows).
  destruct (period r) as [k|]; cbn [notna key_test].
  - rewrite list_sum_group_insert. cbn [length]. f_equal. exact IH.
  - exact IH.
Qed.

(** No period is empty: every record of a period result counts at least
    one transaction and has a finite average. *)
Lemma period_records_nonempty (period : Row -> option K) self :
  Forall (fun kr => (1 <= transaction_count (snd kr))%nat /\
                    exists q, avg_transaction (snd kr) = Py.Fin q)
         (analyze_by_period period self).
Proof.
  apply List.Forall_forall. intros [k m] Hin.
  unfold analyze_by_period in Hin. apply in_map_iff in Hin.
  destruct Hin as [[k' g] [Heq Hin]]. cbn [fst snd] in Heq.
  inversion Heq; subst k' m. clear Heq.
  destruct (RowFacts.group_rows period _ k g Hin) as [Hne _].
  cbn [snd]. destruct g as [|r g]; [congruence|]. split.
  - cbn [transaction_count _calculate_metrics length]. lia.
  - eexists. reflexivity.
Qed.

(** A frame whose rows share one period has one group, the frame. *)
Lemma groupby_single (period : Row -> option K) k rows :
  rows <> [] -> Forall (fun r => period r = Some k) rows ->
  groupby period rows = [(k, rows)].
Proof.
  intros Hne Hall. induction Hall as [|r rows Hr Hall IH]; [congruence|].
  cbn [groupby foldr]. destruct rows as [|r' rows].
  - cbn. rewrite Hr. reflexivity.
  - fold (groupby period (r' :: rows)). rewrite IH by discriminate.
    cbn [group_insert]. rewrite Hr.
    rewrite (proj2 (cmp_eq_iff k k) eq_refl). reflexivity.
Qed.

End Periods.

End PeriodFacts.

(** ** Fields summed over the periods *)

Module PeriodSumFacts.
Import Pandas.



Section Periods.
Context {K : Type} `{CmpLaws K}.







End Periods.

End PeriodSumFacts.

(** ** The orders of the period keys, and the views *)

Module ViewFacts.
Import Pandas.

Lemma year_lt_spec (a b : Z) : key_lt a b <-> (a < b)%Z.
Proof. unfold key_lt, cmp, Z_cmp. apply Z.compare_lt_iff. Qed.

Lemma month_lt_spec (a b : Z * Z) :
  key_lt a b <->
  (fst a < fst b \/ (fst a = fst b /\ snd a < snd b))%Z.
Proof.
  destruct a as [y1 m1], b as [y2 m2]. unfold key_lt, cmp, pair_cmp.
  cbn [fst snd]. unfold cmp, Z_cmp.
  destruct (Z.compare y1 y2) eqn:E.
  - apply Z.compare_eq_iff in E. subst y2. rewrite Z.compare_lt_iff. split.
    + intros Hlt. right. split; [reflexivity | exact Hlt].
    + intros [Hlt | [_ Hlt]]; [exfalso; lia | exact Hlt].
  - split; [intros _; left; exact E | reflexivity].
  - split; [discriminate|].
    intros [Hlt | [Heq _]]; exfalso.
    + unfold Z.lt in Hlt. congruence.
    + subst y2. rewrite Z.compare_refl in E. discriminate.
Qed.

Lemma prepared_months df k :
  In (Some k) (map month (_prepare_data df)) <->
  exists t d, In t df /\ tx_date t = Some d /\ (ts_year d, ts_month d) = k.
Proof.
  unfold _prepare_data. rewrite map_map. cbn [month]. rewrite in_map_iff.
  split.
  - intros [t [Heq Hin]]. destruct (tx_date t) as [d|] eqn:E; [|discriminate].
    exists t, d. cbn [option_map] in Heq. inversion Heq. tauto.
  - intros [t [d [Hin [E Hk]]]]. exists t. rewrite E, <- Hk.
    split; [reflexivity | exact Hin].
Qed.

Lemma prepared_years df y :
  In (Some y) (map year (_prepare_data df)) <->
  exists t d, In t df /\ tx_date t = Some d /\ ts_year d = y.
Proof.
  unfold _prepare_data. rewrite map_map. cbn [year]. rewrite in_map_iff.
  split.
  - intros [t [Heq Hin]]. destruct (tx_date t) as [d|] eqn:E; [|discriminate].
    exists t, d. cbn [option_map] in Heq. inversion Heq. tauto.
  - intros [t [d [Hin [E Hk]]]]. exists t. rewrite E, <- Hk.
    split; [reflexivity | exact Hin].
Qed.

(** The rows that have a month, and those that have a year, are the rows
    of the dated transactions. *)
Lemma with_period_month df :
  with_period month (_prepare_data df) = _prepare_data (dated df).
Proof.
  unfold with_period, dated, _prepare_data.
  rewrite PartitionFacts.filter_map_comm. f_equal.
  apply List.filter_ext. intros t. cbn [month].
  destruct (tx_date t); reflexivity.
Qed.

Lemma with_period_year df :
  with_period year (_prepare_data df) = _prepare_data (dated df).
Proof.
  unfold with_period, dated, _prepare_data.
  rewrite PartitionFacts.filter_map_comm. f_equal.
  apply List.filter_ext. intros t. cbn [year].
  destruct (tx_date t); reflexivity.
Qed.

(** A table whose transactions all carry a date is its own dated part. *)
Lemma dated_all df : Forall (fun t => tx_date t <> None) df -> dated df = df.
Proof.
  unfold dated. induction 1 as [|t df Ht _ IH]; [reflexivity|].
  cbn [List.filter]. destruct (tx_date t); [|congruence].
  cbn [notna key_test]. rewrite IH. reflexivity.
Qed.

Lemma dated_length df : (length (dated df) <= length df)%nat.
Proof. apply List.filter_length_le. Qed.


Lemma months_sorted self :
  StronglySorted
    (fun a b => (fst a < fst b \/ (fst a = fst b /\ snd a < snd b))%Z)
    (map fst (analyze_by_period month self)).
Proof.
  pose proof (PeriodFacts.period_keys_sorted month self) as Hm.
  induction Hm as [|k ks _ IH Hall]; constructor; [exact IH|].
  eapply Forall_impl; [exact Hall|].
  intros b Hb. apply month_lt_spec. exact Hb.
Qed.

End ViewFacts.

(** X7. The monthly and the yearly result list their periods in strictly
    increasing order (months by year, then by month number), hence each
    period once, and the periods listed are exactly those in which the
    table has a dated transaction. *)
Theorem X7_period_keys (df : list Transaction) :
  let self := __init__ df in
  StronglySorted
    (fun a b => (fst a < fst b \/ (fst a = fst b /\ snd a < snd b))%Z)
    (map fst (analyze_by_period month self)) /\
  StronglySorted Z.lt (map fst (analyze_by_period year self)) /\
  List.NoDup (map fst (analyze_by_period month self)) /\
  List.NoDup (map fst (analyze_by_period year self)) /\
  (forall k, In k (map fst (analyze_by_period month self)) <->
             exists t d, In t df /\ tx_date t = Some d /\
                         (ts_year d, ts_month d) = k) /\
  (forall y, In y (map fst (analyze_by_period year self)) <->
             exists t d, In t df /\ tx_date t = Some d /\ ts_year d = y).
Proof.
  intros self.
  pose proof (PeriodFacts.period_keys_sorted month self) as Hm.
  pose proof (PeriodFacts.period_keys_sorted year self) as Hy.
  split; [|split; [|split; [|split; [|split]]]].
  - apply ViewFacts.months_sorted.
  - clear Hm. induction Hy as [|k ks _ IH Hall]; constructor; [exact IH|].
    eapply Forall_impl; [exact Hall|].
    intros b Hb. apply ViewFacts.year_lt_spec. exact Hb.
  - apply GroupByFacts.sorted_NoDup. exact Hm.
  - apply GroupByFacts.sorted_NoDup. exact Hy.
  - intros k. rewrite PeriodFacts.period_keys_rows.
    apply ViewFacts.prepared_months.
  - intros y. rewrite PeriodFacts.period_keys_rows.
    apply ViewFacts.prepared_years.
Qed.

(** X8. No period of a monthly or yearly result is empty: every record
    counts at least one transaction and has a finite [avg_transaction].
    A transaction without a date is in no period: the counts of the months
    and those of the years add up to the number of dated transactions of
    the table, while the all-time record counts every transaction; the two
    numbers agree when every transaction has a date. *)
Theorem X8_period_records_nonempty (df : list Transaction) :
  let self := __init__ df in
  Forall (fun kr => (1 <= transaction_count (snd kr))%nat /\
                    exists q, avg_transaction (snd kr) = Py.Fin q)
         (analyze_by_period month self) /\
  Forall (fun kr => (1 <= transaction_count (snd kr))%nat /\
                    exists q, avg_transaction (snd kr) = Py.Fin q)
         (analyze_by_period year self) /\
  period_count (analyze_by_period month self) = length (dated df) /\
  period_count (analyze_by_period year self) = length (dated df) /\
  transaction_count (analyze_all_time self) = length df /\
  (length (dated df) <= length df)%nat /\
  (Forall (fun t => tx_date t <> None) df -> dated df = df).
Proof.
  intros self.
  assert (Hlen : forall l, length (_prepare_data l) = length l).
  { intros l. unfold _prepare_data. apply length_map. }
  split; [apply PeriodFacts.period_records_nonempty|].
  split; [apply PeriodFacts.period_records_nonempty|].
  split; [rewrite PeriodFacts.period_count_total; unfold self;
          cbn [processed_data __init__];
          rewrite ViewFacts.with_period_month; apply Hlen|].
  split; [rewrite PeriodFacts.period_count_total; unfold self;
          cbn [processed_data __init__];
          rewrite ViewFacts.with_period_year; apply Hlen|].
  split; [apply Hlen|].
  split; [apply ViewFacts.dated_length | apply ViewFacts.dated_all].
Qed.

Lemma X8_period_records_nonempty_witness :
  let self := __init__ sample_ledger in
  period_count (analyze_by_period month self)
  = transaction_count (analyze_all_time self).
Proof.
  intros self.
  destruct (X8_period_records_nonempty sample_ledger)
    as (_ & _ & Hm & _ & Hall & _ & Hd).
  cbv zeta in Hm, Hall. fold self in Hm, Hall.
  rewrite Hm, Hall, Hd; [reflexivity|].
  repeat constructor; discriminate.
Defined.





(** X11. When all the transactions of a table that is not empty are dated
    in one month, the monthly result has that month only, and its record
    is the all-time record. *)
Theorem X11_single_month (df : list Transaction) (k : Z * Z) :
  df <> [] ->
  Forall (fun t => exists d, tx_date t = Some d /\
                             (ts_year d, ts_month d) = k) df ->
  analyze_by_period month (__init__ df)
  = [(k, analyze_all_time (__init__ df))].
Proof.
  intros Hne Hall. unfold analyze_by_period, analyze_all_time.
  cbn [processed_data __init__].
  rewrite (PeriodFacts.groupby_single month k (_prepare_data df)).
  - reflexivity.
  - destruct df; [congruence | discriminate].
  - unfold _prepare_data. apply List.Forall_forall. intros r Hr.
    apply in_map_iff in Hr. destruct Hr as [t [<- Ht]]. cbn [month].
    rewrite List.Forall_forall in Hall.
    destruct (Hall t Ht) as [d [E Hk]]. rewrite E, <- Hk. reflexivity.
Qed.

Lemma X11_single_month_witness :
  analyze_by_period month (__init__ scenario_C)
  = [((2025, 3)%Z, analyze_all_time (__init__ scenario_C))].
Proof.
  apply (X11_single_month scenario_C (2025, 3)%Z).
  - discriminate.
  - repeat constructor; eexists; split; reflexivity.
Defined.





(** ** Sorting by falling value *)

Module SortFacts.
Import PyList.

Lemma In_firstn {A} (j : nat) (l : list A) x : In x (firstn j l) -> In x l.
Proof.
  intros Hin. rewrite <- (firstn_skipn j l). apply in_or_app. left. exact Hin.
Qed.

Lemma In_skipn {A} (j : nat) (l : list A) x : In x (skipn j l) -> In x l.
Proof.
  intros Hin. rewrite <- (firstn_skipn j l). apply in_or_app. right. exact Hin.
Qed.

Lemma insert_desc_perm x l : Permutation (insert_desc x l) (x :: l).
Proof.
  induction l as [|y l IH]; [reflexivity|].
  cbn [insert_desc]. destruct (Py.gt (snd y) (snd x)); [|reflexivity].
  rewrite IH. apply perm_swap.
Qed.

Lemma sorted_perm l : Permutation (sorted_by_value_desc l) l.
Proof.
  induction l as [|x l IH]; [reflexivity|].
  cbn [sorted_by_value_desc foldr]. rewrite insert_desc_perm.
  constructor. exact IH.
Qed.

Lemma insert_desc_sorted x l :
  StronglySorted value_ge l -> StronglySorted value_ge (insert_desc x l).
Proof.
  induction l as [|y l IH]; intros Hs.
  - constructor; constructor.
  - inversion Hs as [|? ? Hs' Hall]; subst. cbn [insert_desc].
    destruct (Py.gt (snd y) (snd x)) eqn:E.
    + constructor; [apply IH; exact Hs'|].
      apply List.Forall_forall. intros z Hz.
      apply (Permutation_in _ (insert_desc_perm x l)) in Hz.
      destruct Hz as [<- | Hz].
      * apply PyFacts.gt_spec in E. apply Qlt_le_weak. exact E.
      * rewrite List.Forall_forall in Hall. apply Hall. exact Hz.
    + apply PyFacts.gt_false in E. constructor; [exact Hs|].
      constructor; [exact E|].
      eapply Forall_impl; [exact Hall|].
      intros z Hz. unfold value_ge in *. eapply Qle_trans; eassumption.
Qed.

Lemma sorted_sorted l : StronglySorted value_ge (sorted_by_value_desc l).
Proof.
  induction l as [|x l IH]; [constructor|].
  cbn [sorted_by_value_desc foldr]. apply insert_desc_sorted. exact IH.
Qed.

Lemma firstn_sorted {A} (R : A -> A -> Prop) j l :
  StronglySorted R l -> StronglySorted R (firstn j l).
Proof.
  revert l. induction j as [|j IH]; intros l Hs; [constructor|].
  destruct l as [|x l]; [constructor|].
  inversion Hs as [|? ? Hs' Hall]; subst. cbn [firstn].
  constructor; [apply IH; exact Hs'|].
  apply List.Forall_forall. intros z Hz. rewrite List.Forall_forall in Hall.
  apply Hall. exact (In_firstn j l z Hz).
Qed.

(** In a sorted list every item of a prefix stands before every item of
    the rest. *)
Lemma prefix_before_rest {A} (R : A -> A -> Prop) j l a b :
  StronglySorted R l -> In a (firstn j l) -> In b (skipn j l) -> R a b.
Proof.
  revert l. induction j as [|j IH]; intros l Hs Ha Hb; [destruct Ha|].
  destruct l as [|x l]; [destruct Ha|].
  inversion Hs as [|? ? Hs' Hall]; subst. cbn [firstn skipn] in Ha, Hb.
  destruct Ha as [<- | Ha].
  - rewrite List.Forall_forall in Hall. apply Hall.
    exact (In_skipn j l b Hb).
  - exact (IH l Hs' Ha Hb).
Qed.

Lemma slice_to_prefix {A} (n : Z) (l : list A) :
  exists j, slice_to n l = firstn j l.
Proof. unfold slice_to. destruct (n <? 0)%Z; eexists; reflexivity. Qed.

Lemma slice_to_length {A} (n : Z) (l : list A) :
  length (slice_to n l)
  = if (n <? 0)%Z then Z.to_nat (Z.of_nat (length l) + n)
    else Nat.min (Z.to_nat n) (length l).
Proof.
  unfold slice_to. destruct (n <? 0)%Z eqn:E.
  - apply Z.ltb_lt in E. rewrite length_firstn. lia.
  - apply length_firstn.
Qed.

Lemma firstn_keys_NoDup (j : nat) (l : list (string * Q)) :
  List.NoDup (map fst l) -> List.NoDup (map fst (firstn j l)).
Proof.
  intros Hnd. rewrite <- (firstn_skipn j l), map_app in Hnd.
  exact (NoDup_app_remove_r _ _ Hnd).
Qed.

End SortFacts.

(** X14. The top spending categories, for every [n]: the items returned
    are entries of the spending map of the all-time record, with distinct
    categories, in the order of falling amount; every entry of the map that
    is left out has an amount at most that of every item returned; and
    there are [min n size] items for [n >= 0], and [size + n] (none if that
    is negative) for [n < 0], [size] being the number of entries of the
    map. *)
Theorem X14_top_spending_categories (n : Z) (df : list Transaction) :
  let self := __init__ df in
  let top := get_top_spending_categories n self in
  let spending := spending_by_category (analyze_all_time self) in
  StronglySorted (fun a b => snd b <= snd a) top /\
  List.NoDup (map fst top) /\
  (forall k v, In (k, v) top -> spending !! k = Some v) /\
  (forall k v k' v',
     In (k, v) top -> spending !! k' = Some v' -> ~ In (k', v') top ->
     v' <= v) /\
  length top
  = (if (n <? 0)%Z then Z.to_nat (Z.of_nat (size spending) + n)
     else Nat.min (Z.to_nat n) (size spending)).
Proof.
  intros self top spending.
  set (items := adjusted_spending_by_category (processed_data self)).
  assert (Hnd : NoDup (map fst items))
    by apply EngineFacts.adjusted_labels_NoDup.
  assert (Hsp : spending = Pandas.to_dict items) by reflexivity.
  pose proof (SortFacts.sorted_perm items) as Hperm.
  pose proof (SortFacts.sorted_sorted items) as Hsorted.
  destruct (SortFacts.slice_to_prefix n (PyList.sorted_by_value_desc items))
    as [j Hj].
  assert (Htop : top = firstn j (PyList.sorted_by_value_desc items))
    by exact Hj.
  assert (Hin : forall k v, In (k, v) (PyList.sorted_by_value_desc items) <->
                            spending !! k = Some v).
  { intros k v. rewrite Hsp. unfold Pandas.to_dict.
    rewrite <- (elem_of_list_to_map _ _ _ Hnd), list_elem_of_In.
    split; apply Permutation_in; [exact Hperm | symmetry; exact Hperm]. }
  split; [|split; [|split; [|split]]].
  - rewrite Htop. apply SortFacts.firstn_sorted. exact Hsorted.
  - rewrite Htop. apply SortFacts.firstn_keys_NoDup.
    apply (Permutation_NoDup (l := map fst items));
      [apply Permutation_map; symmetry; exact Hperm | apply NoDup_ListNoDup, Hnd].
  - intros k v Hk. apply Hin. rewrite Htop in Hk.
    exact (SortFacts.In_firstn j _ _ Hk).
  - intros k v k' v' Hk Hl Hout. apply Hin in Hl.
    rewrite <- (firstn_skipn j (PyList.sorted_by_value_desc items)) in Hl.
    apply in_app_iff in Hl. rewrite Htop in Hk, Hout.
    destruct Hl as [Hl | Hl]; [contradiction|].
    exact (SortFacts.prefix_before_rest PyList.value_ge j _ (k, v) (k', v')
             Hsorted Hk Hl).
  - unfold top, get_top_spending_categories. fold items.
    rewrite SortFacts.slice_to_length.
    rewrite (Permutation_length Hperm).
    rewrite Hsp. unfold Pandas.to_dict.
    rewrite (map_size_list_to_map items Hnd). reflexivity.
Qed.

(** ** The order of the rows *)

Module OrderFacts.

Lemma rows_sum_perm (f : Row -> Q) df df' :
  Permutation df df' ->
  Py.sum (map f (_prepare_data df)) == Py.sum (map f (_prepare_data df')).
Proof.
  intros Hperm. apply PyFacts.sum_Permutation.
  apply Permutation_map. unfold _prepare_data. apply Permutation_map.
  exact Hperm.
Qed.

End OrderFacts.

(** X15. The totals of a record do not depend on the order of the rows of
    the table: two tables with the same transactions in another order give
    the same incomes, spendings, balance, lending figures, charity
    spending, raw totals and transaction count. *)
Theorem X15_row_order_irrelevant
  (self : FinancialAnalyzer) (df df' : list Transaction) :
  Permutation df df' ->
  let m := _calculate_metrics self (_prepare_data df) in
  let m' := _calculate_metrics self (_prepare_data df') in
  total_income m == total_income m' /\
  total_spending m == total_spending m' /\
  net_balance m == net_balance m' /\
  total_lending m == total_lending m' /\
  repaid_lending m == repaid_lending m' /\
  outstanding_lending m == outstanding_lending m' /\
  excess_repayment m == excess_repayment m' /\
  charity_spending m == charity_spending m' /\
  total_income_raw (raw_totals m) == total_income_raw (raw_totals m') /\
  total_spending_raw (raw_totals m) == total_spending_raw (raw_totals m') /\
  transaction_count m = transaction_count m'.
Proof.
  intros Hperm m m'.
  pose proof (RowFacts.prepare_prepared df) as Hp.
  pose proof (RowFacts.prepare_prepared df') as Hp'.
  assert (Hti : total_income m == total_income m').
  { unfold m, m'. rewrite !PartitionFacts.total_income_weight.
    apply OrderFacts.rows_sum_perm, Hperm. }
  assert (Htl : total_lending m == total_lending m').
  { unfold m, m'.
    rewrite (MetricFacts.total_lending_rows self _ Hp).
    rewrite (MetricFacts.total_lending_rows self _ Hp').
    apply OrderFacts.rows_sum_perm, Hperm. }
  assert (Hrl : repaid_lending m == repaid_lending m').
  { unfold m, m'. rewrite !MetricFacts.repaid_lending_rows.
    apply OrderFacts.rows_sum_perm, Hperm. }
  assert (Hch : charity_spending m == charity_spending m').
  { unfold m, m'.
    rewrite (MetricFacts.charity_spending_rows self _ Hp).
    rewrite (MetricFacts.charity_spending_rows self _ Hp').
    apply OrderFacts.rows_sum_perm, Hperm. }
  assert (Hir : total_income_raw (raw_totals m)
                == total_income_raw (raw_totals m')).
  { unfold m, m'. rewrite !MetricFacts.total_income_raw_rows.
    apply OrderFacts.rows_sum_perm, Hperm. }
  assert (Hsr : total_spending_raw (raw_totals m)
                == total_spending_raw (raw_totals m')).
  { unfold m, m'.
    rewrite (MetricFacts.total_spending_raw_rows self _ Hp).
    rewrite (MetricFacts.total_spending_raw_rows self _ Hp').
    apply OrderFacts.rows_sum_perm, Hperm. }
  assert (Hnet : net_loan_spending (_prepare_data df)
                 == net_loan_spending (_prepare_data df')).
  { rewrite !(EngineFacts.net_loan_spending_eq self). fold m m'.
    rewrite Htl, Hrl. reflexivity. }
  assert (Hout : outstanding_lending m == outstanding_lending m').
  { unfold m, m'. rewrite !EngineFacts.outstanding_lending_eq.
    apply SumFacts.max_Qeq. exact Hnet. }
  assert (Hexc : excess_repayment m == excess_repayment m').
  { unfold m, m'. rewrite !EngineFacts.excess_repayment_eq.
    apply SumFacts.max_Qeq. rewrite Hnet. reflexivity. }
  assert (Hts : total_spending m == total_spending m').
  { unfold m, m'.
    rewrite (MetricFacts.total_spending_adjustment self _ Hp).
    rewrite (MetricFacts.total_spending_adjustment self _ Hp').
    fold m m'. rewrite Hsr, Htl, Hout. reflexivity. }
  repeat split; try assumption.
  - change (total_income m - total_spending m
            == total_income m' - total_spending m').
    rewrite Hti, Hts. reflexivity.
  - unfold m, m', _prepare_data.
    cbn [transaction_count _calculate_metrics]. rewrite !length_map.
    apply Permutation_length. exact Hperm.
Qed.

Lemma X15_row_order_irrelevant_witness :
  total_spending
    (_calculate_metrics (__init__ scenario_A) (_prepare_data scenario_A))
  == total_spending
       (_calculate_metrics (__init__ scenario_A)
          (_prepare_data (rev scenario_A))).
Proof.
  apply (X15_row_order_irrelevant (__init__ scenario_A) scenario_A
           (rev scenario_A)).
  apply Permutation_rev.
Defined.
